(** * mp_blat: partitioning, dispatch and merge of a FASTA alignment job

    A shallow embedding of [mp_blat.py] and the properties of its
    split planner, file splitter, worker dispatch and result merger.

    Conventions of the embedding.
    - Python [int] is [Z]; [divmod] is floor division, which is [Z.div] and
      [Z.modulo], and raises [ZeroDivisionError] on a zero divisor.
    - Python exceptions are the constructors of [exn]; a call that may raise
      returns a [result].
    - A [str] read from a file and the bytes of a file are [list ascii];
      paths, program names and command-line tokens are [string].
    - The file system is a finite map from path strings to file contents.
      Text streams are modelled for a single-byte locale codec under which
      decoding is the identity on bytes (ISO-8859-1; UTF-8 and ASCII agree
      with it on 7-bit files), with universal-newline translation on input
      and POSIX line endings on output.
    - The external programs are fields of the class [Externals]. *)

From Stdlib Require Import ZArith QArith Qround Ascii String List Lia.
From stdpp Require Import gmap strings list fin_maps pretty.

Local Open Scope Z_scope.

(** ** Python exceptions and fallible results *)

Inductive exn : Set :=
| NameError
| TypeError
| ValueError
| IndexError
| ZeroDivisionError
| FileNotFoundError.

Inductive result (A : Type) : Type :=
| Ok (a : A)
| Raise (e : exn).

Arguments Ok {A} a.
Arguments Raise {A} e.

Definition rbind {A B} (r : result A) (k : A -> result B) : result B :=
  match r with
  | Ok a => k a
  | Raise e => Raise e
  end.

Notation "'let?' x := c 'in' k" := (rbind c (fun x => k))
  (at level 10, x pattern, c at level 100, k at level 200,
   format "'[v' 'let?'  x  :=  c  'in' '/' k ']'").

Definition is_ok {A} (r : result A) : bool :=
  match r with Ok _ => true | Raise _ => false end.

(** ** Python primitives used by the program *)

(** [divmod a b] *)
Definition py_divmod (a b : Z) : result (Z * Z) :=
  if b =? 0 then Raise ZeroDivisionError else Ok (a / b, a mod b).

(** [l[i]] with Python's negative indices *)
Definition py_getitem {A} (l : list A) (i : Z) : result A :=
  let n := Z.of_nat (length l) in
  let j := if i <? 0 then i + n else i in
  if (j <? 0) || (n <=? j) then Raise IndexError
  else match l !! Z.to_nat j with
       | Some a => Ok a
       | None => Raise IndexError
       end.

(** [l[i] += d] *)
Definition py_incritem (l : list Z) (i : Z) (d : Z) : result (list Z) :=
  let? x := py_getitem l i in
  let n := Z.of_nat (length l) in
  let j := if i <? 0 then i + n else i in
  Ok (<[Z.to_nat j := x + d]> l).

(** [[x] * n] *)
Definition py_repeat {A} (x : A) (n : Z) : list A := replicate (Z.to_nat n) x.

(** [range(n)] *)
Definition py_range (n : Z) : list Z := seqZ 0 n.

(** [range(a, b)] *)
Definition py_range2 (a b : Z) : list Z := seqZ a (b - a).

(** [sum(l)] *)
Definition py_sum (l : list Z) : Z := foldr Z.add 0 l.

(** [l[:-1]] *)
Definition py_init {A} (l : list A) : list A := take (length l - 1)%nat l.

(** [for x in xs: acc = f acc x], stopping at the first exception *)
Fixpoint rfold {A B} (f : A -> B -> result A) (xs : list B) (acc : A)
  : result A :=
  match xs with
  | [] => Ok acc
  | x :: xs' => let? acc' := f acc x in rfold f xs' acc'
  end.

(** *** [int(s)] on a string

    CPython first maps every character above 126 to a space (if it is a
    Unicode space), to its decimal digit, or to a character that no
    integer literal contains; then it skips ASCII white space, reads an
    optional sign and the digits, in which single underscores may separate
    digits, skips white space again and requires the end of the string.
    A literal of more than [max_str_digits] digits is refused when that
    limit is positive. *)

Definition code (c : ascii) : Z := Z.of_N (N_of_ascii c).

Definition is_digit (c : ascii) : bool := (48 <=? code c) && (code c <=? 57).

Definition digit_val (c : ascii) : Z := code c - 48.

(** [Py_ISSPACE] after the transformation of the Unicode spaces NEL and
    NBSP to an ASCII space *)
Definition int_space (c : ascii) : bool :=
  let n := code c in
  ((9 <=? n) && (n <=? 13)) || (n =? 32) || (n =? 133) || (n =? 160).

Definition is_underscore (c : ascii) : bool := code c =? 95.

Fixpoint skip_spaces (s : list ascii) : list ascii :=
  match s with
  | c :: s' => if int_space c then skip_spaces s' else s
  | [] => []
  end.

(** The digits of a literal: [prev] tells whether the previous character
    was a digit ([true]) or an underscore or the start ([false]); the
    result is the value, the number of digits and the unread rest. *)
Fixpoint scan_digits (s : list ascii) (prev : bool) (acc : Z) (n : Z)
  : option (Z * Z * list ascii) :=
  match s with
  | [] => if prev then Some (acc, n, []) else None
  | c :: s' =>
      if is_digit c then scan_digits s' true (10 * acc + digit_val c) (n + 1)
      else if is_underscore c then
        if prev then scan_digits s' false acc n else None
      else if prev then Some (acc, n, s) else None
  end.

Definition py_int (max_str_digits : Z) (s : list ascii) : result Z :=
  let s1 := skip_spaces s in
  let '(sign, s2) :=
    match s1 with
    | c :: r => if code c =? 45 then (-1, r)
                else if code c =? 43 then (1, r) else (1, s1)
    | [] => (1, s1)
    end in
  match scan_digits s2 false 0 0 with
  | None => Raise ValueError
  | Some (v, n, rest) =>
      match skip_spaces rest with
      | [] => if (0 <? max_str_digits) && (max_str_digits <? n)
              then Raise ValueError else Ok (sign * v)
      | _ :: _ => Raise ValueError
      end
  end.

(** *** Text and byte streams *)

Definition LF : ascii := "010"%char.
Definition CR : ascii := "013"%char.
Definition TAB : ascii := "009"%char.

Definition is_char (a c : ascii) : bool := code c =? code a.

(** Universal newlines of a text stream opened for reading: CR LF and a
    lone CR both become LF; [pendingcr] tells that the previous character
    was a CR that is already translated. *)
Fixpoint universal_newlines (pendingcr : bool) (s : list ascii) : list ascii :=
  match s with
  | [] => []
  | c :: s' =>
      if is_char CR c then LF :: universal_newlines true s'
      else if is_char LF c then
        if pendingcr then universal_newlines false s'
        else LF :: universal_newlines false s'
      else c :: universal_newlines false s'
  end.

(** [for line in f]: the lines of a text, each with its terminator *)
Fixpoint file_lines (s : list ascii) : list (list ascii) :=
  match s with
  | [] => []
  | c :: s' =>
      if is_char LF c then [c] :: file_lines s'
      else match file_lines s' with
           | l :: ls => (c :: l) :: ls
           | [] => [[c]]
           end
  end.

(** [f.readline()] of a binary stream: the line read and the rest *)
Fixpoint readline (s : list ascii) : list ascii * list ascii :=
  match s with
  | [] => ([], [])
  | c :: s' =>
      if is_char LF c then ([c], s')
      else let '(l, r) := readline s' in (c :: l, r)
  end.

(** [f.read(size)] of a stream with [s] left to read: a negative size
    reads to the end *)
Definition stream_read (s : list ascii) (size : Z) : list ascii * list ascii :=
  if size <? 0 then (s, []) else (take (Z.to_nat size) s, drop (Z.to_nat size) s).

(** [s.rstrip(c)] *)
Fixpoint lstrip_char (a : ascii) (s : list ascii) : list ascii :=
  match s with
  | c :: s' => if is_char a c then lstrip_char a s' else s
  | [] => []
  end.

Definition rstrip_char (a : ascii) (s : list ascii) : list ascii :=
  rev (lstrip_char a (rev s)).

(** [s.split(sep)] for a one-character separator *)
Fixpoint split_char (sep : ascii) (s : list ascii) : list (list ascii) :=
  match s with
  | [] => [[]]
  | c :: s' =>
      if is_char sep c then [] :: split_char sep s'
      else match split_char sep s' with
           | f :: fs => (c :: f) :: fs
           | [] => [[c]]
           end
  end.

(** *** [os.path] on POSIX *)

Definition SLASH : ascii := "/"%char.

(** the part of a path after its last slash *)
Fixpoint basename_aux (acc s : list ascii) : list ascii :=
  match s with
  | [] => rev acc
  | c :: s' => if is_char SLASH c then basename_aux [] s'
               else basename_aux (c :: acc) s'
  end.

Definition basename (p : string) : string :=
  string_of_list_ascii (basename_aux [] (list_ascii_of_string p)).

(** [os.path.join a b] *)
Definition path_join (a b : string) : string :=
  match list_ascii_of_string b with
  | c :: _ => if is_char SLASH c then b
              else match last (list_ascii_of_string a) with
                   | None => b
                   | Some d => if is_char SLASH d then (a +:+ b)%string
                               else (a +:+ "/" +:+ b)%string
                   end
  | [] => match last (list_ascii_of_string a) with
          | None => b
          | Some d => if is_char SLASH d then a else (a +:+ "/")%string
          end
  end.

(** ** The external collaborators

    [int_max_str_digits] is the interpreter's limit on the digits of an
    integer literal (0: no limit). [blat_exec bin options ref input] is
    what the alignment program [bin] does when it is given the contents of
    its reference and input files ([None]: no such file): its exit code
    and the contents of the output file it writes, if it writes one.
    [faidx_exec bin source] is the same for the index generator, which
    writes the index next to its source. [mkdtemp_name] is the name the
    operating system picks for a temporary directory of a given prefix.
    (The interpreter lets the limit be 0 or at least 640; the properties
    below hold for every value.) Both programs are taken to be installed,
    and a file system call fails only for a file that is not there. *)

Class Externals := {
  int_max_str_digits : Z;
  blat_exec : string -> list string -> option (list ascii) ->
              option (list ascii) -> Z * option (list ascii);
  faidx_exec : string -> option (list ascii) -> Z * option (list ascii);
  mkdtemp_name : string -> string
}.

(** ** class FastaIndex *)

Module FastaIndex.

Record t := mk {
  name : list ascii;
  length : Z;
  offset : Z;
  line_bases : Z;
  line_width : Z
}.

(** The constructor, called on the unpacked fields of a line: a call
    with other than five arguments is a [TypeError]; the four numeric fields go through [int] in order. *)
Definition init `{Externals} (data : list (list ascii)) : result t :=
  match data with
  | [name; length; offset; line_bases; line_width] =>
      let? length := py_int int_max_str_digits length in
      let? offset := py_int int_max_str_digits offset in
      let? line_bases := py_int int_max_str_digits line_bases in
      let? line_width := py_int int_max_str_digits line_width in
      Ok (mk name length offset line_bases line_width)
  | _ => Raise TypeError
  end.

Definition end_pos (self : t) : result Z :=
  let? (num_lines, r) := py_divmod (length self) (line_bases self) in
  let num_lines := if 0 <? r then num_lines + 1 else num_lines in
  let end_pos := offset self + length self + num_lines in
  Ok end_pos.

End FastaIndex.

(** One line of the index file, as the loop of [FastaFile.split] reads it *)
Definition parse_index_line `{Externals} (line : list ascii)
  : result FastaIndex.t :=
  let data := split_char TAB (rstrip_char LF line) in
  FastaIndex.init data.

(** ** The split planner of [FastaFile.split] *)

Record plan := {
  num_list : list Z;
  splice_pos : list Z;
  block_size : list Z
}.

(** The number of records of each part *)
Definition plan_num_list (num_records num_files : Z) : result (list Z) :=
  let? (num_for_each_file, remainder) := py_divmod num_records num_files in
  let num_list := py_repeat num_for_each_file num_files in
  rfold (fun num_list i => py_incritem num_list i 1) (py_range remainder)
        num_list.

(** The positions at which the file is cut: one turn of the loop, on
    the positions found so far and the running index *)
Definition splice_step (fa_idx_data : list FastaIndex.t)
    (state : list Z * Z) (num : Z) : result (list Z * Z) :=
  let '(splice_pos, idx) := state in
  let idx := idx + num in
  let? r := py_getitem fa_idx_data idx in
  let? pos := FastaIndex.end_pos r in
  Ok (splice_pos ++ [pos], idx).

Definition plan_splice_pos (fa_idx_data : list FastaIndex.t)
    (num_list : list Z) : result (list Z) :=
  let? (splice_pos, _) :=
    rfold (splice_step fa_idx_data) (py_init num_list) ([], -1) in
  Ok splice_pos.

(** The size of each block *)
Definition plan_block_size (fa_idx_data : list FastaIndex.t)
    (splice_pos : list Z) : result (list Z) :=
  let? r := py_getitem fa_idx_data (-1) in
  let? e := FastaIndex.end_pos r in
  let splice_pos_extend := [0] ++ splice_pos ++ [e] in
  Ok (zip_with Z.sub (drop 1 splice_pos_extend) (py_init splice_pos_extend)).

Definition split_plan (fa_idx_data : list FastaIndex.t) (num_files : Z)
  : result plan :=
  let? num_list :=
    plan_num_list (Z.of_nat (length fa_idx_data)) num_files in
  let? splice_pos := plan_splice_pos fa_idx_data num_list in
  let? block_size := plan_block_size fa_idx_data splice_pos in
  Ok {| num_list := num_list; splice_pos := splice_pos;
        block_size := block_size |}.

(** ** The world: a file system and the trace of what was done to it *)

Inductive event : Type :=
| EvExists (path : string)
| EvOpenRead (path : string)
| EvOpenWrite (path : string)
| EvExec (argv : list string) (returncode : Z)
| EvMkdtemp (path : string).

Record world := {
  fs : gmap string (list ascii);
  trace : list event
}.

Definition M (A : Type) : Type := world -> result A * world.

Definition ret {A} (a : A) : M A := fun w => (Ok a, w).

Definition raise {A} (e : exn) : M A := fun w => (Raise e, w).

Definition bind {A B} (c : M A) (k : A -> M B) : M B :=
  fun w => match c w with
           | (Ok a, w') => k a w'
           | (Raise e, w') => (Raise e, w')
           end.

Definition lift {A} (r : result A) : M A := fun w => (r, w).

Notation "'let*' x := c 'in' k" := (bind c (fun x => k))
  (at level 10, x pattern, c at level 100, k at level 200,
   format "'[v' 'let*'  x  :=  c  'in' '/' k ']'").

Definition log (e : event) : M unit :=
  fun w => (Ok tt, {| fs := fs w; trace := trace w ++ [e] |}).

Definition set_file (path : string) (data : list ascii) : M unit :=
  fun w => (Ok tt, {| fs := <[path := data]> (fs w); trace := trace w |}).

Definition get_file (path : string) : M (option (list ascii)) :=
  fun w => (Ok (fs w !! path), w).

(** [os.path.exists(path)] *)
Definition path_exists (path : string) : M bool :=
  let* _ := log (EvExists path) in
  let* c := get_file path in
  ret (match c with Some _ => true | None => false end).

(** [open(path, 'rb')]: the bytes of the file *)
Definition open_rb (path : string) : M (list ascii) :=
  let* _ := log (EvOpenRead path) in
  let* c := get_file path in
  match c with
  | Some data => ret data
  | None => raise FileNotFoundError
  end.

(** [open(path)]: the text of the file; [open(None)] is a [TypeError].
    The characters read are the bytes of the file, as they are for every
    file under a single-byte codec and for a file of 7-bit characters
    under any codec of a locale. *)
Definition open_r (path : option string) : M (list ascii) :=
  match path with
  | None => raise TypeError
  | Some path => let* data := open_rb path in ret (universal_newlines false data)
  end.

(** [open(path, 'w')] and [open(path, 'wb')]: the file is created or
    truncated *)
Definition open_w (path : string) : M unit :=
  let* _ := log (EvOpenWrite path) in
  set_file path [].

(** [f.write(data)] on a file opened for writing at [path] *)
Definition file_write (path : string) (data : list ascii) : M unit :=
  let* c := get_file path in
  set_file path (default [] c ++ data).

(** [for x in xs: body x] *)
Fixpoint for_each {A} (xs : list A) (body : A -> M unit) : M unit :=
  match xs with
  | [] => ret tt
  | x :: xs' => let* _ := body x in for_each xs' body
  end.

(** ** [shlex.split] in POSIX mode, without comments *)

Inductive shlex_state : Type :=
| ShWhite
| ShWord
| ShQuote (q : ascii)
| ShEscape (escapedstate : option ascii).

Definition shlex_whitespace (c : ascii) : bool :=
  is_char " "%char c || is_char TAB c || is_char CR c || is_char LF c.

Definition SQUOTE : ascii := "039"%char.
Definition DQUOTE : ascii := "034"%char.

Definition shlex_quote (c : ascii) : bool :=
  is_char SQUOTE c || is_char DQUOTE c.

Definition BACKSLASH : ascii := "\"%char.

Definition shlex_emit (token : list ascii) (quoted : bool)
    (rest : list (list ascii)) : list (list ascii) :=
  match token with
  | [] => if quoted then token :: rest else rest
  | _ :: _ => token :: rest
  end.

Fixpoint shlex_tokens (s : list ascii) (state : shlex_state)
    (token : list ascii) (quoted : bool) : result (list (list ascii)) :=
  match s with
  | [] =>
      match state with
      | ShWhite => Ok []
      | ShWord => Ok (shlex_emit token quoted [])
      | ShQuote _ => Raise ValueError
      | ShEscape _ => Raise ValueError
      end
  | c :: s' =>
      match state with
      | ShWhite =>
          if shlex_whitespace c then shlex_tokens s' ShWhite token quoted
          else if is_char BACKSLASH c then
            shlex_tokens s' (ShEscape None) token quoted
          else if shlex_quote c then shlex_tokens s' (ShQuote c) token quoted
          else shlex_tokens s' ShWord [c] quoted
      | ShWord =>
          if shlex_whitespace c then
            let? rest := shlex_tokens s' ShWhite [] false in
            Ok (shlex_emit token quoted rest)
          else if shlex_quote c then shlex_tokens s' (ShQuote c) token quoted
          else if is_char BACKSLASH c then
            shlex_tokens s' (ShEscape None) token quoted
          else shlex_tokens s' ShWord (token ++ [c]) quoted
      | ShQuote q =>
          if is_char q c then shlex_tokens s' ShWord token true
          else if is_char BACKSLASH c && is_char DQUOTE q then
            shlex_tokens s' (ShEscape (Some q)) token true
          else shlex_tokens s' (ShQuote q) (token ++ [c]) true
      | ShEscape None => shlex_tokens s' ShWord (token ++ [c]) quoted
      | ShEscape (Some q) =>
          let token :=
            if negb (is_char BACKSLASH c) && negb (is_char q c)
            then token ++ [BACKSLASH] else token in
          shlex_tokens s' (ShQuote q) (token ++ [c]) quoted
      end
  end.

Definition shlex_split (s : string) : result (list string) :=
  let? tokens := shlex_tokens (list_ascii_of_string s) ShWhite [] false in
  Ok (string_of_list_ascii <$> tokens).

(** ** class Blat *)

Module Blat.

Record t := mk {
  blat_bin : string;
  blat_options : list string
}.

Definition init (blat_bin blat_options : string) : result t :=
  let? blat_options := shlex_split blat_options in
  Ok (mk blat_bin blat_options).

(** [sp.run([blat_bin, ref_file, fa_file, out_file] + blat_options)];
    the completed process is represented by its return code. *)
Definition _run `{Externals} (self : t)
    (ref_file fa_file out_file : string) : M Z :=
  let* ref := get_file ref_file in
  let* fa := get_file fa_file in
  let '(returncode, out) :=
    blat_exec (blat_bin self) (blat_options self) ref fa in
  let* _ := match out with
       | Some data => set_file out_file data
       | None => ret tt
       end in
  let* _ := log (EvExec ([blat_bin self; ref_file; fa_file; out_file]
                      ++ blat_options self) returncode) in
  ret returncode.

Definition call `{Externals} (self : t)
    (ref_file fa_file out_file : string) : M Z :=
  _run self ref_file fa_file out_file.

End Blat.

(** ** Name resolution in the module

    A name read in a function body that is neither a parameter nor
    assigned in the body is a global: it is looked up among the names
    bound at module level and then among the builtins, and a name found
    in neither raises [NameError]. An object found is represented by the
    name it is bound to. *)

Definition module_globals : list string :=
  [ "__name__"; "__doc__"; "__package__"; "__loader__"; "__spec__";
    "__file__"; "__cached__"; "__builtins__"; "__annotations__";
    "argparse"; "shlex"; "shutil"; "sp"; "os"; "tp"; "cf"; "logging";
    "partial"; "Blat"; "FastaIndex"; "FastaFile"; "mp_blat";
    "create_parser"; "parser"; "args" ]%string.

Definition builtins : list string :=
  [ "ArithmeticError"; "AssertionError"; "AttributeError"; "BaseException";
    "BaseExceptionGroup"; "BlockingIOError"; "BrokenPipeError";
    "BufferError"; "BytesWarning"; "ChildProcessError";
    "ConnectionAbortedError"; "ConnectionError"; "ConnectionRefusedError";
    "ConnectionResetError"; "DeprecationWarning"; "EOFError"; "Ellipsis";
    "EncodingWarning"; "EnvironmentError"; "Exception"; "ExceptionGroup";
    "False"; "FileExistsError"; "FileNotFoundError"; "FloatingPointError";
    "FutureWarning"; "GeneratorExit"; "IOError"; "ImportError";
    "ImportWarning"; "IndentationError"; "IndexError"; "InterruptedError";
    "IsADirectoryError"; "KeyError"; "KeyboardInterrupt"; "LookupError";
    "MemoryError"; "ModuleNotFoundError"; "NameError"; "None";
    "NotADirectoryError"; "NotImplemented"; "NotImplementedError";
    "OSError"; "OverflowError"; "PendingDeprecationWarning";
    "PermissionError"; "ProcessLookupError"; "RecursionError";
    "ReferenceError"; "ResourceWarning"; "RuntimeError"; "RuntimeWarning";
    "StopAsyncIteration"; "StopIteration"; "SyntaxError"; "SyntaxWarning";
    "SystemError"; "SystemExit"; "TabError"; "TimeoutError"; "True";
    "TypeError"; "UnboundLocalError"; "UnicodeDecodeError";
    "UnicodeEncodeError"; "UnicodeError"; "UnicodeTranslateError";
    "UnicodeWarning"; "UserWarning"; "ValueError"; "Warning";
    "ZeroDivisionError"; "__build_class__"; "__debug__"; "__doc__";
    "__import__"; "__loader__"; "__name__"; "__package__"; "__spec__";
    "abs"; "aiter"; "all"; "anext"; "any"; "ascii"; "bin"; "bool";
    "breakpoint"; "bytearray"; "bytes"; "callable"; "chr"; "classmethod";
    "compile"; "complex"; "copyright"; "credits"; "delattr"; "dict"; "dir";
    "divmod"; "enumerate"; "eval"; "exec"; "exit"; "filter"; "float";
    "format"; "frozenset"; "getattr"; "globals"; "hasattr"; "hash"; "help";
    "hex"; "id"; "input"; "int"; "isinstance"; "issubclass"; "iter"; "len";
    "license"; "list"; "locals"; "map"; "max"; "memoryview"; "min"; "next";
    "object"; "oct"; "open"; "ord"; "pow"; "print"; "property"; "quit";
    "range"; "repr"; "reversed"; "round"; "set"; "setattr"; "slice";
    "sorted"; "staticmethod"; "str"; "sum"; "super"; "tuple"; "type";
    "vars"; "zip" ]%string.

Definition load_global (x : string) : result string :=
  if bool_decide (x ∈ module_globals ++ builtins) then Ok x
  else Raise NameError.

(** ** class FastaFile *)

Module FastaFile.

Record t := mk {
  original_file : string;
  samtools_bin : string;
  index_file : option string;
  files : option (list string);
  original_filename : string
}.

(** The body of the constructor reads [samtools_bin], which is neither
    a parameter of the constructor nor assigned in it. *)
Definition init (fa_file : string) : result t :=
  let original_file := fa_file in
  let? samtools_bin := load_global "samtools_bin" in
  let index_file := None in
  let files := None in
  let original_filename := basename original_file in
  Ok (mk original_file samtools_bin index_file files original_filename).

Definition set_index_file (self : t) (v : option string) : t :=
  mk (original_file self) (samtools_bin self) v (files self)
     (original_filename self).

Definition set_files (self : t) (v : option (list string)) : t :=
  mk (original_file self) (samtools_bin self) (index_file self) v
     (original_filename self).

Definition has_index (self : t) : M (bool * t) :=
  let* b := path_exists (original_file self +:+ ".fai") in
  if b : bool
  then ret (true, set_index_file self (Some (original_file self +:+ ".fai")))
  else ret (false, self).

(** [sp.run([samtools_bin, 'faidx', self.original_file])] *)
Definition create_index `{Externals} (self : t) (samtools_bin : string)
  : M (Z * t) :=
  let* src := get_file (original_file self) in
  let '(returncode, out) := faidx_exec samtools_bin src in
  let* _ := match out with
       | Some data => set_file (original_file self +:+ ".fai") data
       | None => ret tt
       end in
  let* _ := log (EvExec [samtools_bin; "faidx"; original_file self]
                   returncode) in
  if returncode =? 0
  then ret (returncode,
            set_index_file self (Some (original_file self +:+ ".fai")))
  else ret (returncode, self).

(** The loop over the lines of the index *)
Definition read_index `{Externals} (idx_in : list ascii)
  : result (list FastaIndex.t) :=
  rfold (fun fa_idx_data line =>
           let? idx_data := parse_index_line line in
           Ok (fa_idx_data ++ [idx_data]))
        (file_lines idx_in) [].

(** The names of the parts *)
Definition part_files (self : t) (num_files : Z) (work_dir : string)
  : list string :=
  (fun i => path_join work_dir
              (original_filename self +:+ ".part_" +:+ pretty i))
    <$> py_range2 1 (num_files + 1).

(** The loop that writes the parts: [fa_in] is what is left to read of
    the source *)
Fixpoint write_parts (fa_in : list ascii) (jobs : list (string * Z))
  : M unit :=
  match jobs with
  | [] => ret tt
  | (file_, bsize) :: jobs' =>
      let* _ := open_w file_ in
      let '(data, fa_in') := stream_read fa_in bsize in
      let* _ := file_write file_ data in
      write_parts fa_in' jobs'
  end.

Definition split `{Externals} (self : t) (num_files : Z)
    (work_dir : string) (samtools_bin : string) : M t :=
  let* (found, self) := has_index self in
  let* self := (if found : bool then ret self
           else let* (_, self) := create_index self samtools_bin in
                ret self) in
  let* idx_in := open_r (index_file self) in
  let* fa_idx_data := lift (read_index idx_in) in
  let* p := lift (split_plan fa_idx_data num_files) in
  let self := set_files self (Some (part_files self num_files work_dir)) in
  let* fa_in := open_r (Some (original_file self)) in
  let* _ := write_parts fa_in (zip (default [] (files self)) (block_size p)) in
  ret self.

End FastaFile.

(** ** mp_blat *)

(** [tp.TemporaryDirectory(prefix=prefix, dir=dir)]: the name of the
    directory made *)
Definition TemporaryDirectory `{Externals} (prefix dir : string) : M string :=
  let name := path_join dir (mkdtemp_name prefix) in
  let* _ := log (EvMkdtemp name) in
  ret name.

(** [cf.ProcessPoolExecutor(max_workers)] *)
Definition ProcessPoolExecutor (max_workers : Z) : M unit :=
  if max_workers <=? 0 then raise ValueError else ret tt.

(** [executor.map(fn, xs, ys)] inside the [with] block of the executor:
    every call is made and has completed when the block is left; the
    results are never asked for. The calls are run here in the order of
    submission. *)
Definition executor_map (fn : string -> string -> M Z)
    (xs ys : list string) : M unit :=
  for_each (zip xs ys) (fun '(x, y) => let* _ := fn x y in ret tt).

(** The first [n] lines of a binary stream, and what follows them *)
Fixpoint read_lines (n : nat) (s : list ascii) : list ascii * list ascii :=
  match n with
  | O => ([], s)
  | S n' => let '(l, r) := readline s in
            let '(ls, r') := read_lines n' r in
            (l ++ ls, r')
  end.

(** The merge of the results into [output_file] *)
Definition merge_results (output_file : string) (out_files : list string)
  : M unit :=
  let* _ := open_w output_file in
  let* first := lift (py_getitem out_files 0) in
  let* res_in := open_rb first in
  let '(header, _) := read_lines 5 res_in in
  let* _ := file_write output_file header in
  let res_start_pos := length header in
  for_each out_files (fun file_ =>
    let* res_in := open_rb file_ in
    file_write output_file (drop res_start_pos res_in)).

(** The branch of [mp_blat] for more than one process, from the call of
    [split] on *)
Definition mp_blat_parallel `{Externals} (blat : string -> string -> M Z)
    (fa_file : FastaFile.t) (output_file : string) (num_proc : Z)
    (tmp_dir : string) (samtools_bin : string) : M unit :=
  let* fa_file := FastaFile.split fa_file num_proc tmp_dir samtools_bin in
  let* files := lift (match FastaFile.files fa_file with
                 | Some files => Ok files
                 | None => Raise TypeError
                 end) in
  let out_files := (fun file_ => file_ +:+ ".psl") <$> files in
  let* _ := ProcessPoolExecutor num_proc in
  let* _ := executor_map blat files out_files in
  merge_results output_file out_files.

Definition mp_blat `{Externals} (reference_file fasta_file output_file : string)
    (num_proc : Z) (tmp_path blat_bin blat_options samtools_bin : string)
  : M unit :=
  let* _blat := lift (Blat.init blat_bin blat_options) in
  let blat := Blat.call _blat reference_file in
  if num_proc =? 1 then
    let* _ := blat fasta_file output_file in
    ret tt
  else
    let* tmp_dir := TemporaryDirectory "mp_blat_tmp." "." in
    let* fa_file := lift (FastaFile.init fasta_file) in
    mp_blat_parallel blat fa_file output_file num_proc tmp_dir samtools_bin.

(** ** Notions of the specification *)

(** [ceil(length / line_bases)], on the rationals *)
Definition ceil_div (a b : Z) : Z := Qceiling (inject_Z a / inject_Z b).

(** A base-10 non-negative integer: a non-empty string of digits *)
Definition decimal_literal (s : list ascii) : bool :=
  match s with
  | [] => false
  | _ :: _ => forallb is_digit s
  end.

(** The first five lines of a result file, and the bytes that follow them *)
Definition header_block (data : list ascii) : list ascii :=
  fst (read_lines 5 data).

Definition result_body (data : list ascii) : list ascii :=
  snd (read_lines 5 data).

(** A position is the end of a record of the index. *)
Definition record_end (fa_idx_data : list FastaIndex.t) (pos : Z) : Prop :=
  exists r, r ∈ fa_idx_data /\ FastaIndex.end_pos r = Ok pos.

(** The end positions of the records of an index, in order *)
Definition end_positions (fa_idx_data : list FastaIndex.t) (ends : list Z)
  : Prop :=
  Forall2 (fun r e => FastaIndex.end_pos r = Ok e) fa_idx_data ends.

(** The blocks that successive reads of the given sizes take from a
    stream *)
Fixpoint read_blocks (fa_in : list ascii) (sizes : list Z)
  : list (list ascii) :=
  match sizes with
  | [] => []
  | bsize :: sizes' =>
      let '(data, fa_in') := stream_read fa_in bsize in
      data :: read_blocks fa_in' sizes'
  end.

(** A text without carriage return *)
Definition no_cr (s : list ascii) : Prop :=
  Forall (fun c => is_char CR c = false) s.


(** The greatest and the least element of a non-empty list *)
Definition list_max (l : list Z) : Z := foldr Z.max (default 0 (head l)) l.

Definition list_min (l : list Z) : Z := foldr Z.min (default 0 (head l)) l.

(** The object that the constructor of [FastaFile] would build if the
    name it reads were bound to [v] *)
Definition FastaFile_object (fa_file v : string) : FastaFile.t :=
  FastaFile.mk fa_file v None None (basename fa_file).

(** A character that [shlex] takes as part of a word: no white space, no
    quote, no backslash *)
Definition shlex_plain (c : ascii) : bool :=
  negb (shlex_whitespace c || shlex_quote c || is_char BACKSLASH c).

(** An option that needs no quoting: not empty, made of plain characters *)
Definition plain_option (t : string) : Prop :=
  t <> EmptyString
  /\ Forall (fun c => shlex_plain c = true) (list_ascii_of_string t).

(** The records of an index follow one another in the file from position
    [prev] on: every record starts at or after the end of the one before
    it, has a length that is not negative and a positive number of bases
    per line. *)
Fixpoint laid_out (prev : Z) (fa_idx_data : list FastaIndex.t) : Prop :=
  match fa_idx_data with
  | [] => True
  | r :: fa_idx_data' =>
      prev <= FastaIndex.offset r /\ 0 <= FastaIndex.length r
      /\ 0 < FastaIndex.line_bases r
      /\ match FastaIndex.end_pos r with
         | Ok e => laid_out e fa_idx_data'
         | Raise _ => False
         end
  end.

(** A list of positions in non-decreasing order *)
Definition nondecreasing (l : list Z) : Prop :=
  forall (i j : nat) (x y : Z),
    (i <= j)%nat -> l !! i = Some x -> l !! j = Some y -> x <= y.


(** ** Concrete collaborators and files for the examples *)

Definition text (s : string) : list ascii := list_ascii_of_string s.

Definition nl : string := String LF EmptyString.
Definition cr : string := String CR EmptyString.
Definition tab : string := String TAB EmptyString.

(** An alignment program that copies its input to its output *)
#[local] Instance copy_externals : Externals := {|
  int_max_str_digits := 4300;
  blat_exec := fun _ _ _ input => (0, input);
  faidx_exec := fun _ _ => (1, None);
  mkdtemp_name := fun prefix => (prefix +:+ "k3v9x0ab")%string
|}.

(** An alignment program that writes a truncated result and exits with
    status 1 *)
Definition failing_externals : Externals := {|
  int_max_str_digits := 4300;
  blat_exec := fun _ _ _ _ => (1, Some (text ("psLayout version 3" +:+ nl)));
  faidx_exec := fun _ _ => (1, None);
  mkdtemp_name := fun prefix => (prefix +:+ "k3v9x0ab")%string
|}.


Definition world_of (files : list (string * list ascii)) : world :=
  {| fs := list_to_map files; trace := [] |}.

(** A source of two records with CR LF line ends, and its index *)
Definition crlf_source : list ascii :=
  text (">a" +:+ cr +:+ nl +:+ "AC" +:+ cr +:+ nl
        +:+ ">b" +:+ cr +:+ nl +:+ "GT" +:+ cr +:+ nl).

Definition crlf_world : world :=
  world_of
    [("s.fa", crlf_source);
     ("s.fa.fai",
      text ("a" +:+ tab +:+ "2" +:+ tab +:+ "4" +:+ tab +:+ "2" +:+ tab
            +:+ "4" +:+ nl +:+ "b" +:+ tab +:+ "2" +:+ tab +:+ "12" +:+ tab
            +:+ "2" +:+ tab +:+ "4" +:+ nl))]%string.

(** A reference, a source of two records and its index *)
Definition two_record_world : world :=
  world_of
    [("ref.fa", text (">r" +:+ nl +:+ "ACGT" +:+ nl));
     ("s.fa", text (">a" +:+ nl +:+ "AC" +:+ nl +:+ ">b" +:+ nl +:+ "GT"
                    +:+ nl));
     ("s.fa.fai",
      text ("a" +:+ tab +:+ "2" +:+ tab +:+ "3" +:+ tab +:+ "2" +:+ tab
            +:+ "3" +:+ nl +:+ "b" +:+ tab +:+ "2" +:+ tab +:+ "9" +:+ tab
            +:+ "2" +:+ tab +:+ "3" +:+ nl))]%string.

(** * Properties *)

(** ** The result monad and the folds *)

Lemma rfold_app {A B} (f : A -> B -> result A) xs ys acc :
  rfold f (xs ++ ys) acc = let? acc' := rfold f xs acc in rfold f ys acc'.
Proof.
  revert acc. induction xs as [|x xs IH]; intros acc; simpl; [done|].
  destruct (f acc x); simpl; [apply IH|done].
Qed.

Lemma py_getitem_nat {A} (l : list A) (i : nat) x :
  l !! i = Some x -> py_getitem l (Z.of_nat i) = Ok x.
Proof.
  intros Hl. pose proof (lookup_lt_Some _ _ _ Hl) as Hlt.
  unfold py_getitem.
  destruct (Z.ltb_spec (Z.of_nat i) 0); [lia|].
  destruct (Z.ltb_spec (Z.of_nat i) 0); [lia|].
  destruct (Z.leb_spec (Z.of_nat (length l)) (Z.of_nat i)); [lia|].
  simpl. rewrite Nat2Z.id, Hl. done.
Qed.

Lemma py_getitem_elem {A} (l : list A) (i : Z) x :
  py_getitem l i = Ok x -> x ∈ l.
Proof.
  unfold py_getitem. case_match; [done|].
  destruct (l !! _) eqn:Hl; [|done].
  intros [= <-]. by eapply list_elem_of_lookup_2.
Qed.

Lemma py_getitem_last {A} (l : list A) x :
  py_getitem l (-1) = Ok x <-> last l = Some x.
Proof.
  unfold py_getitem. simpl.
  destruct l as [|a l] using rev_ind; [done|].
  rewrite last_snoc, length_app. simpl.
  destruct (Z.ltb_spec (-1 + Z.of_nat (length l + 1)) 0); [lia|].
  destruct (Z.leb_spec (Z.of_nat (length l + 1)) (-1 + Z.of_nat (length l + 1))); [lia|].
  simpl. replace (Z.to_nat (-1 + Z.of_nat (length l + 1))) with (length l) by lia.
  rewrite lookup_app_r, Nat.sub_diag by lia. simpl. split; congruence.
Qed.

(** ** The planner: the number of records of each part *)

Lemma incr_step (b : Z) (n k : nat) :
  (k < n)%nat ->
  py_incritem (replicate k (b + 1) ++ replicate (n - k) b) (Z.of_nat k) 1
  = Ok (replicate (S k) (b + 1) ++ replicate (n - S k) b).
Proof.
  intros Hk. unfold py_incritem.
  rewrite (py_getitem_nat _ k b).
  2:{ rewrite lookup_app_r, length_replicate, Nat.sub_diag
        by (rewrite length_replicate; lia).
      apply lookup_replicate. split; [done|lia]. }
  simpl. destruct (Z.ltb_spec (Z.of_nat k) 0); [lia|].
  rewrite Nat2Z.id. f_equal.
  rewrite insert_app_r_alt, length_replicate, Nat.sub_diag
    by (rewrite length_replicate; lia).
  replace (n - k)%nat with (S (n - S k)) by lia.
  simpl. rewrite app_comm_cons, replicate_cons_app, <- app_assoc. done.
Qed.

Lemma incr_prefix (b : Z) (n k : nat) :
  (k <= n)%nat ->
  rfold (fun num_list i => py_incritem num_list i 1)
        (seqZ 0 (Z.of_nat k)) (replicate n b)
  = Ok (replicate k (b + 1) ++ replicate (n - k) b).
Proof.
  induction k as [|k IH]; intros Hk.
  - simpl. by rewrite Nat.sub_0_r.
  - replace (Z.of_nat (S k)) with (Z.of_nat k + 1) by lia.
    rewrite seqZ_app, rfold_app, IH by lia.
    replace (seqZ (0 + Z.of_nat k) 1) with [Z.of_nat k]
      by (cbn; f_equal; lia).
    cbn [rbind rfold]. rewrite incr_step by lia. done.
Qed.

Lemma plan_num_list_spec (R P : Z) :
  0 < P ->
  plan_num_list R P
  = Ok (replicate (Z.to_nat (R mod P)) (R / P + 1)
        ++ replicate (Z.to_nat (P - R mod P)) (R / P)).
Proof.
  intros HP. unfold plan_num_list, py_divmod.
  destruct (Z.eqb_spec P 0); [lia|]. simpl.
  pose proof (Z.mod_pos_bound R P HP) as Hm.
  unfold py_range, py_repeat.
  rewrite <- (Z2Nat.id (R mod P)) at 1 by lia.
  rewrite incr_prefix by lia.
  do 2 f_equal. f_equal. lia.
Qed.

Lemma list_min_max_bounds (lo hi : Z) (l : list Z) :
  l <> [] -> Forall (fun x => lo <= x <= hi) l ->
  lo <= list_min l /\ list_max l <= hi.
Proof.
  intros Hne Hall. unfold list_min, list_max.
  assert (Hb : lo <= default 0 (head l) <= hi).
  { destruct l as [|x l]; [done|]. simpl. by inversion Hall. }
  revert Hb. generalize (default 0 (head l)). intros base Hb.
  induction Hall as [|x l Hx Hall IH]; [done|]. simpl.
  destruct l as [|y l].
  - simpl. lia.
  - specialize (IH ltac:(done)). lia.
Qed.

(** C7. For a record count R and a partition count P with 1 <= P <= R,
    the planner gives base + 1 records to each of the first [remainder]
    parts and base records to the others, where (base, remainder) =
    divmod(R, P); the greatest and the least count differ by at most one;
    five records in three parts are counted [2; 2; 1]. *)
Theorem C7_counts_front_loaded_and_balanced (R P : Z) :
  1 <= P <= R ->
  exists counts,
    plan_num_list R P = Ok counts
    /\ counts = replicate (Z.to_nat (R mod P)) (R / P + 1)
                ++ replicate (Z.to_nat (P - R mod P)) (R / P)
    /\ (forall fa_idx_data p,
          Z.of_nat (length fa_idx_data) = R ->
          split_plan fa_idx_data P = Ok p -> num_list p = counts)
    /\ list_max counts - list_min counts <= 1
    /\ plan_num_list 5 3 = Ok [2; 2; 1].
Proof.
  intros HP. eexists. split; [apply plan_num_list_spec; lia|].
  split; [done|]. split; [|split; [|done]].
  - intros fa_idx_data p HR. unfold split_plan. rewrite HR.
    rewrite plan_num_list_spec by lia. simpl.
    destruct (plan_splice_pos _ _); simpl; [|done].
    destruct (plan_block_size _ _); simpl; [|done].
    by intros [= <-].
  - pose proof (Z.mod_pos_bound R P ltac:(lia)) as Hm.
    match goal with |- list_max ?l - list_min ?l <= 1 =>
      destruct (list_min_max_bounds (R / P) (R / P + 1) l) as [Hlo Hhi]
    end; [| |lia].
    + intros Heq. apply (f_equal length) in Heq.
      rewrite length_app, !length_replicate in Heq. simpl in Heq. lia.
    + apply Forall_app. split; apply Forall_replicate; lia.
Qed.

Lemma C7_counts_witness :
  exists counts, plan_num_list 7 3 = Ok counts /\ counts = [3; 2; 2].
Proof.
  destruct (C7_counts_front_loaded_and_balanced 7 3 ltac:(lia))
    as (counts & H1 & H2 & _).
  exists counts. split; [exact H1|]. rewrite H2. reflexivity.
Defined.

(** ** The end of a record *)

Lemma ceil_div_pos (a b : Z) :
  0 < b -> ceil_div a b = if 0 <? a mod b then a / b + 1 else a / b.
Proof.
  intros Hb. unfold ceil_div, Qceiling.
  destruct b as [|p|p]; try lia.
  unfold Qdiv, Qinv, Qmult, Qopp, Qfloor, inject_Z. simpl Qnum. simpl Qden.
  rewrite Z.mul_1_r, Pos.mul_1_l.
  pose proof (Z.mod_pos_bound a (Z.pos p) ltac:(lia)) as Hm.
  destruct (Z.ltb_spec 0 (a mod Z.pos p)).
  - rewrite Z_div_nz_opp_full by lia. lia.
  - rewrite Z_div_zero_opp_full by lia. lia.
Qed.

Lemma end_pos_nonzero (r : FastaIndex.t) :
  FastaIndex.line_bases r <> 0 ->
  FastaIndex.end_pos r
  = Ok (FastaIndex.offset r + FastaIndex.length r
        + (if 0 <? FastaIndex.length r mod FastaIndex.line_bases r
           then FastaIndex.length r / FastaIndex.line_bases r + 1
           else FastaIndex.length r / FastaIndex.line_bases r)).
Proof.
  intros Hb. unfold FastaIndex.end_pos, py_divmod.
  destruct (Z.eqb_spec (FastaIndex.line_bases r) 0); [done|]. done.
Qed.

Lemma end_pos_zero (r : FastaIndex.t) :
  FastaIndex.line_bases r = 0 ->
  FastaIndex.end_pos r = Raise ZeroDivisionError.
Proof. intros Hb. unfold FastaIndex.end_pos, py_divmod. by rewrite Hb. Qed.

(** C8. For a record with a positive line_bases the end position is
    offset + length + ceil(length / line_bases); a record of length 100
    with 50 bases per line ends 102 after its offset; and four such
    records laid out one after the other, each after a header of [g]
    bytes (the scenario of the specification is [g = 0], the first offset
    being 0), are cut in two blocks of equal size. *)
Theorem C8_end_pos_is_offset_length_ceil (r : FastaIndex.t) :
  0 < FastaIndex.line_bases r ->
  FastaIndex.end_pos r
  = Ok (FastaIndex.offset r + FastaIndex.length r
        + ceil_div (FastaIndex.length r) (FastaIndex.line_bases r))
  /\ (FastaIndex.length r = 100 -> FastaIndex.line_bases r = 50 ->
      FastaIndex.end_pos r = Ok (FastaIndex.offset r + 102))
  /\ (forall (n1 n2 n3 n4 : list ascii) (g : Z),
        let record n o := FastaIndex.mk n 100 o 50 51 in
        split_plan [record n1 g; record n2 (102 + 2 * g);
                    record n3 (204 + 3 * g); record n4 (306 + 4 * g)] 2
        = Ok {| num_list := [2; 2];
                splice_pos := [204 + 2 * g];
                block_size := [204 + 2 * g; 204 + 2 * g] |}).
Proof.
  intros Hb. split; [|split].
  - rewrite end_pos_nonzero by lia. by rewrite ceil_div_pos.
  - intros Hl Hlb. rewrite end_pos_nonzero by lia. rewrite Hl, Hlb.
    change (100 `mod` 50) with 0. change (100 `div` 50) with 2.
    simpl. f_equal. lia.
  - intros n1 n2 n3 n4 g record. unfold split_plan. simpl.
    unfold plan_splice_pos, plan_block_size. simpl.
    change (100 `div` 50) with 2.
    change (py_repeat (Z.of_nat 4 `div` 2) 2) with [2; 2].
    replace (306 + 4 * g + 100 + 2 - (102 + 2 * g + 100 + 2))
      with (204 + 2 * g) by lia.
    replace (102 + 2 * g + 100 + 2 - 0) with (204 + 2 * g) by lia.
    replace (102 + 2 * g + 100 + 2) with (204 + 2 * g) by lia.
    done.
Qed.

Lemma C8_end_pos_witness :
  FastaIndex.end_pos (FastaIndex.mk [] 101 7 50 51) = Ok (7 + 101 + 3).
Proof.
  destruct (C8_end_pos_is_offset_length_ceil
              (FastaIndex.mk [] 101 7 50 51) ltac:(simpl; lia))
    as (H & _).
  rewrite H. reflexivity.
Defined.

(** ** The planner: cut positions and block sizes *)

Lemma py_getitem_ok {A} (l : list A) (i : Z) :
  - Z.of_nat (length l) <= i < Z.of_nat (length l) ->
  exists x, py_getitem l i = Ok x.
Proof.
  intros Hi. unfold py_getitem.
  set (j := if i <? 0 then i + Z.of_nat (length l) else i).
  assert (Hj : 0 <= j < Z.of_nat (length l)).
  { subst j. destruct (Z.ltb_spec i 0); lia. }
  destruct (Z.ltb_spec j 0); [lia|].
  destruct (Z.leb_spec (Z.of_nat (length l)) j); [lia|]. simpl.
  destruct (lookup_lt_is_Some_2 l (Z.to_nat j) ltac:(lia)) as [x Hx].
  rewrite Hx. eauto.
Qed.

Lemma py_getitem_empty {A} (i : Z) : py_getitem (@nil A) i = Raise IndexError.
Proof.
  unfold py_getitem. case_match; [done|]. by rewrite lookup_nil.
Qed.

Lemma py_sum_app (l k : list Z) : py_sum (l ++ k) = py_sum l + py_sum k.
Proof. induction l as [|x l IH]; simpl; [done|]. rewrite IH. lia. Qed.

Lemma py_sum_replicate (n : nat) (x : Z) :
  py_sum (replicate n x) = Z.of_nat n * x.
Proof. induction n as [|n IH]; [done|]. simpl replicate. simpl py_sum. lia. Qed.

Lemma py_init_snoc {A} (l : list A) (x : A) : py_init (l ++ [x]) = l.
Proof.
  unfold py_init. rewrite length_app. simpl.
  replace (length l + 1 - 1)%nat with (length l) by lia.
  by rewrite take_app_length.
Qed.

Lemma py_init_length {A} (l : list A) :
  length (py_init l) = (length l - 1)%nat.
Proof. unfold py_init. rewrite length_take. lia. Qed.

Lemma splice_loop_ok (fa_idx_data : list FastaIndex.t) (nums : list Z) :
  forall (splice_pos : list Z) (idx : Z),
    fa_idx_data <> [] ->
    Forall (fun r => FastaIndex.line_bases r <> 0) fa_idx_data ->
    Forall (fun num => 0 <= num) nums ->
    -1 <= idx ->
    idx + py_sum nums < Z.of_nat (length fa_idx_data) ->
    exists out, rfold (splice_step fa_idx_data) nums (splice_pos, idx) = Ok out.
Proof.
  induction nums as [|num nums IH]; intros splice_pos idx Hne Hlb Hnums Hidx Hsum.
  - simpl. eauto.
  - inversion Hnums as [|? ? Hnum Hnums']; subst. simpl in Hsum.
    assert (Hlen : (0 < length fa_idx_data)%nat).
    { destruct fa_idx_data; [done|simpl; lia]. }
    assert (Hs : 0 <= py_sum nums).
    { clear -Hnums'. induction Hnums'; simpl; lia. }
    destruct (py_getitem_ok fa_idx_data (idx + num) ltac:(lia)) as [r Hr].
    simpl. rewrite Hr. simpl.
    rewrite end_pos_nonzero
      by (eapply (proj1 (Forall_forall _ _) Hlb), py_getitem_elem, Hr).
    simpl. apply IH; try done; lia.
Qed.

Lemma splice_loop_inv (fa_idx_data : list FastaIndex.t) (nums : list Z) :
  forall splice_pos idx splice_pos' idx',
    rfold (splice_step fa_idx_data) nums (splice_pos, idx)
    = Ok (splice_pos', idx') ->
    Forall (record_end fa_idx_data) splice_pos ->
    Forall (record_end fa_idx_data) splice_pos'
    /\ length splice_pos' = (length splice_pos + length nums)%nat.
Proof.
  induction nums as [|num nums IH]; intros sp idx sp' idx'; simpl.
  - intros [= <- <-] Hall. split; [done|lia].
  - destruct (py_getitem fa_idx_data (idx + num)) as [r|] eqn:Hr; [|done].
    simpl. destruct (FastaIndex.end_pos r) as [pos|] eqn:Hpos; [|done].
    simpl. intros Hrest Hall.
    apply IH in Hrest as [H1 H2].
    + split; [done|]. rewrite H2, length_app. simpl. lia.
    + apply Forall_app. split; [done|]. apply Forall_singleton.
      exists r. split; [by eapply py_getitem_elem|done].
Qed.

Lemma block_sizes_sum (splice_pos : list Z) (a e : Z) :
  py_sum (zip_with Z.sub (splice_pos ++ [e]) (a :: splice_pos)) = e - a.
Proof.
  revert a. induction splice_pos as [|x l IH]; intros a; simpl; [lia|].
  rewrite IH. lia.
Qed.

Lemma plan_block_size_spec (fa_idx_data : list FastaIndex.t)
    (splice_pos block_size : list Z) :
  plan_block_size fa_idx_data splice_pos = Ok block_size ->
  exists r e,
    last fa_idx_data = Some r /\ FastaIndex.end_pos r = Ok e
    /\ block_size = zip_with Z.sub (splice_pos ++ [e]) (0 :: splice_pos).
Proof.
  unfold plan_block_size.
  destruct (py_getitem fa_idx_data (-1)) as [r|] eqn:Hr; [|done]. simpl.
  destruct (FastaIndex.end_pos r) as [e|] eqn:He; [|done]. simpl.
  intros [= <-]. exists r, e. split; [by apply py_getitem_last|].
  split; [done|].
  change (0 :: splice_pos ++ [e]) with ((0 :: splice_pos) ++ [e]).
  rewrite py_init_snoc. done.
Qed.

Lemma num_list_init (R P : Z) :
  0 < P ->
  py_init (replicate (Z.to_nat (R mod P)) (R / P + 1)
           ++ replicate (Z.to_nat (P - R mod P)) (R / P))
  = replicate (Z.to_nat (R mod P)) (R / P + 1)
    ++ replicate (Z.to_nat (P - R mod P - 1)) (R / P).
Proof.
  intros HP. pose proof (Z.mod_pos_bound R P HP) as Hm.
  replace (Z.to_nat (P - R mod P)) with (S (Z.to_nat (P - R mod P - 1)))
    by lia.
  rewrite replicate_S_end, app_assoc. apply py_init_snoc.
Qed.

Lemma split_plan_unfold (fa_idx_data : list FastaIndex.t) (P : Z) :
  0 < P ->
  split_plan fa_idx_data P
  = let R := Z.of_nat (length fa_idx_data) in
    let counts := replicate (Z.to_nat (R mod P)) (R / P + 1)
                  ++ replicate (Z.to_nat (P - R mod P)) (R / P) in
    let? out := rfold (splice_step fa_idx_data)
                  (replicate (Z.to_nat (R mod P)) (R / P + 1)
                   ++ replicate (Z.to_nat (P - R mod P - 1)) (R / P))
                  ([], -1) in
    let? block_size := plan_block_size fa_idx_data out.1 in
    Ok {| num_list := counts; splice_pos := out.1;
          block_size := block_size |}.
Proof.
  intros HP. unfold split_plan. rewrite plan_num_list_spec by done.
  simpl. unfold plan_splice_pos. rewrite num_list_init by done.
  destruct (rfold _ _ _) as [[sp idx]|]; done.
Qed.

Lemma split_plan_total (fa_idx_data : list FastaIndex.t) (P : Z) :
  fa_idx_data <> [] -> 0 < P ->
  Forall (fun r => FastaIndex.line_bases r <> 0) fa_idx_data ->
  exists p, split_plan fa_idx_data P = Ok p.
Proof.
  intros Hne HP Hlb. rewrite split_plan_unfold by done. cbv zeta.
  set (R := Z.of_nat (length fa_idx_data)).
  pose proof (Z.mod_pos_bound R P HP) as Hm.
  assert (HR : 0 <= R) by lia.
  assert (Hbase : 0 <= R / P) by (apply Z.div_pos; lia).
  destruct (splice_loop_ok fa_idx_data
              (replicate (Z.to_nat (R mod P)) (R / P + 1)
               ++ replicate (Z.to_nat (P - R mod P - 1)) (R / P))
              [] (-1) Hne Hlb) as [[sp idx] Hout].
  - apply Forall_app. split; apply Forall_replicate; lia.
  - lia.
  - rewrite py_sum_app, !py_sum_replicate. fold R.
    pose proof (Z.div_mod R P ltac:(lia)). nia.
  - rewrite Hout. simpl.
    unfold plan_block_size.
    destruct (py_getitem_ok fa_idx_data (-1)) as [r Hr].
    { destruct fa_idx_data; [done|]. simpl. lia. }
    rewrite Hr. simpl.
    rewrite end_pos_nonzero
      by (eapply (proj1 (Forall_forall _ _) Hlb), py_getitem_elem, Hr).
    simpl. eauto.
Qed.

Lemma split_plan_sound (fa_idx_data : list FastaIndex.t) (P : Z) (p : plan) :
  0 < P ->
  split_plan fa_idx_data P = Ok p ->
  exists r e,
    last fa_idx_data = Some r /\ FastaIndex.end_pos r = Ok e
    /\ block_size p = zip_with Z.sub (splice_pos p ++ [e]) (0 :: splice_pos p)
    /\ py_sum (block_size p) = e
    /\ length (splice_pos p) = Z.to_nat (P - 1)
    /\ length (block_size p) = Z.to_nat P
    /\ Forall (record_end fa_idx_data) (splice_pos p).
Proof.
  intros HP. rewrite split_plan_unfold by done. cbv zeta.
  set (R := Z.of_nat (length fa_idx_data)).
  pose proof (Z.mod_pos_bound R P HP) as Hm.
  destruct (rfold _ _ _) as [[sp idx]|] eqn:Hout; [|done]. simpl.
  destruct (plan_block_size fa_idx_data sp) as [bs|] eqn:Hbs; [|done]. simpl.
  intros [= <-]. simpl.
  apply plan_block_size_spec in Hbs as (r & e & Hlast & He & ->).
  apply splice_loop_inv in Hout as [Hends Hlen]; [|done].
  rewrite length_app, !length_replicate in Hlen. simpl in Hlen.
  exists r, e. repeat split; try done.
  - rewrite block_sizes_sum. lia.
  - lia.
  - rewrite length_zip_with, length_app. simpl. lia.
Qed.

(** C2. For an index of R >= 1 records and 1 <= P <= R, the planner
    returns a plan whenever no record has line_bases 0, and in every plan
    it returns the block sizes are the pairwise differences of
    [0] + split positions + [end_pos of the last record], they sum to the
    end position of the last record, and every split position is the end
    position of a record of the index. *)
Theorem C2_block_sizes_sum_to_extent
    (fa_idx_data : list FastaIndex.t) (P : Z) :
  1 <= P <= Z.of_nat (length fa_idx_data) ->
  (Forall (fun r => FastaIndex.line_bases r <> 0) fa_idx_data ->
   exists p, split_plan fa_idx_data P = Ok p)
  /\ (forall p,
        split_plan fa_idx_data P = Ok p ->
        exists r e,
          last fa_idx_data = Some r /\ FastaIndex.end_pos r = Ok e
          /\ block_size p
             = zip_with Z.sub (splice_pos p ++ [e]) (0 :: splice_pos p)
          /\ py_sum (block_size p) = e
          /\ length (block_size p) = Z.to_nat P
          /\ Forall (record_end fa_idx_data) (splice_pos p)).
Proof.
  intros HP. split.
  - intros Hlb. apply split_plan_total; [|lia|done].
    destruct fa_idx_data; [simpl in HP; lia|done].
  - intros p Hp.
    destruct (split_plan_sound fa_idx_data P p ltac:(lia) Hp)
      as (r & e & H1 & H2 & H3 & H4 & _ & H5 & H6).
    exists r, e. done.
Qed.

Lemma C2_block_sizes_witness :
  exists p,
    split_plan [FastaIndex.mk [] 100 3 50 51; FastaIndex.mk [] 70 108 50 51;
                FastaIndex.mk [] 10 183 50 51] 2 = Ok p
    /\ py_sum (block_size p) = 194.
Proof.
  destruct (C2_block_sizes_sum_to_extent
              [FastaIndex.mk [] 100 3 50 51; FastaIndex.mk [] 70 108 50 51;
               FastaIndex.mk [] 10 183 50 51] 2 ltac:(simpl; lia))
    as [Htotal Hsound].
  destruct Htotal as [p Hp].
  { repeat constructor; simpl; lia. }
  exists p. split; [exact Hp|].
  destruct (Hsound p Hp) as (r & e & Hlast & He & _ & Hsum & _).
  simpl in Hlast. injection Hlast as <-.
  vm_compute in He. injection He as <-. exact Hsum.
Defined.

(** ** The planner when there are more parts than records *)






Lemma end_positions_last (fa_idx_data : list FastaIndex.t) (ends : list Z)
    (r : FastaIndex.t) :
  end_positions fa_idx_data ends ->
  last fa_idx_data = Some r ->
  exists e, last ends = Some e /\ FastaIndex.end_pos r = Ok e.
Proof.
  induction 1 as [|r0 e0 l ends He Hrest IH]; [done|].
  destruct l as [|r1 l].
  - inversion Hrest; subst. simpl. intros [= <-]. eauto.
  - inversion Hrest as [|? e1 ? ends' ? ?]; subst.
    intros Hlast. apply IH. done.
Qed.


Lemma split_plan_empty_index (P : Z) :
  0 < P -> split_plan [] P = Raise IndexError.
Proof.
  intros HP. rewrite split_plan_unfold by done. cbv zeta.
  simpl length. change (Z.of_nat 0) with 0.
  rewrite Z.mod_0_l, Z.div_0_l by lia.
  change (Z.to_nat 0) with 0%nat. cbn [replicate app].
  destruct (Z.to_nat (P - 0 - 1)) as [|k]; cbn [replicate rfold rbind fst].
  - unfold plan_block_size. by rewrite py_getitem_empty.
  - unfold splice_step at 1. by rewrite py_getitem_empty.
Qed.



(** ** The lines of the index *)

Lemma py_int_raises (msd : Z) (s : list ascii) (e : exn) :
  py_int msd s = Raise e -> e = ValueError.
Proof.
  unfold py_int. repeat case_match; congruence.
Qed.

Lemma digit_not_space (c : ascii) : is_digit c = true -> int_space c = false.
Proof.
  unfold is_digit, int_space. intros Hd.
  apply andb_true_iff in Hd as [H1 H2].
  apply Z.leb_le in H1. apply Z.leb_le in H2.
  repeat match goal with
         | |- context [(?a <=? ?b)] => destruct (Z.leb_spec a b)
         | |- context [(?a =? ?b)] => destruct (Z.eqb_spec a b)
         end; simpl; try done; lia.
Qed.

Lemma scan_all_digits (f : list ascii) :
  forall prev acc n,
    forallb is_digit f = true -> 0 <= acc ->
    (f <> [] \/ prev = true) ->
    exists v, scan_digits f prev acc n
              = Some (v, n + Z.of_nat (length f), [])
              /\ 0 <= v.
Proof.
  induction f as [|c f IH]; intros prev acc n Hall Hacc Hne.
  - destruct Hne as [? | ->]; [done|]. simpl. exists acc.
    rewrite Z.add_0_r. done.
  - simpl in Hall. apply andb_true_iff in Hall as [Hc Hall].
    simpl. rewrite Hc.
    destruct (IH true (10 * acc + digit_val c) (n + 1) Hall) as (v & Hv & Hv0).
    + unfold digit_val, is_digit in *.
      apply andb_true_iff in Hc as [H1 _]. apply Z.leb_le in H1. lia.
    + by right.
    + exists v. rewrite Hv. split; [|done]. do 3 f_equal. lia.
Qed.

Lemma decimal_py_int (msd : Z) (f : list ascii) :
  decimal_literal f = true ->
  msd <= 0 \/ Z.of_nat (length f) <= msd ->
  exists v, py_int msd f = Ok v /\ 0 <= v.
Proof.
  intros Hd Hlim. destruct f as [|c f]; [done|].
  unfold decimal_literal in Hd.
  pose proof Hd as Hall. simpl in Hd.
  apply andb_true_iff in Hd as [Hc _].
  destruct (scan_all_digits (c :: f) false 0 0 Hall ltac:(lia)
              ltac:(by left)) as (v & Hv & Hv0).
  unfold py_int. simpl skip_spaces. rewrite (digit_not_space c Hc).
  assert (H45 : (code c =? 45) = false).
  { unfold is_digit in Hc. apply andb_true_iff in Hc as [H1 _].
    apply Z.leb_le in H1. apply Z.eqb_neq. lia. }
  assert (H43 : (code c =? 43) = false).
  { unfold is_digit in Hc. apply andb_true_iff in Hc as [H1 _].
    apply Z.leb_le in H1. apply Z.eqb_neq. lia. }
  rewrite H45, H43, Hv. simpl skip_spaces. cbv iota.
  rewrite Z.add_0_l.
  destruct ((0 <? msd) && (msd <? Z.of_nat (length (c :: f)))) eqn:Hl.
  - apply andb_true_iff in Hl as [H1 H2].
    apply Z.ltb_lt in H1. apply Z.ltb_lt in H2. lia.
  - exists v. split; [f_equal; lia|done].
Qed.

Lemma FastaIndex_init_arity `{Externals} (data : list (list ascii)) :
  length data <> 5%nat -> FastaIndex.init data = Raise TypeError.
Proof.
  intros Hlen. unfold FastaIndex.init.
  destruct data as [|? [|? [|? [|? [|? [|? ?]]]]]]; simpl in *; done.
Qed.

Lemma FastaIndex_init_fields `{Externals} (n f2 f3 f4 f5 : list ascii) :
  FastaIndex.init [n; f2; f3; f4; f5]
  = let? length := py_int int_max_str_digits f2 in
    let? offset := py_int int_max_str_digits f3 in
    let? line_bases := py_int int_max_str_digits f4 in
    let? line_width := py_int int_max_str_digits f5 in
    Ok (FastaIndex.mk n length offset line_bases line_width).
Proof. done. Qed.

(** C9, as the code has it. A line of the index parses exactly when it
    splits into five tab-separated fields and [int] accepts each of the
    fields 2 to 5; with another number of fields the failure is a
    TypeError, otherwise a ValueError; and fields 2 to 5 that are
    non-empty strings of decimal digits (no more of them than the
    interpreter's limit on integer literals) give a record whose four
    numbers are non-negative. [int] accepts more than such strings, a
    sign among them. *)
Theorem C9_index_line_parses_iff_five_fields_and_ints
    `{Externals} (line : list ascii) :
  let data := split_char TAB (rstrip_char LF line) in
  (is_ok (parse_index_line line) = true
   <-> length data = 5%nat
       /\ Forall (fun f => is_ok (py_int int_max_str_digits f) = true)
                 (drop 1 data))
  /\ (length data <> 5%nat -> parse_index_line line = Raise TypeError)
  /\ (length data = 5%nat -> is_ok (parse_index_line line) = false ->
      parse_index_line line = Raise ValueError)
  /\ (length data = 5%nat ->
      Forall (fun f => decimal_literal f = true
                       /\ (int_max_str_digits <= 0
                           \/ Z.of_nat (length f) <= int_max_str_digits))
             (drop 1 data) ->
      exists r, parse_index_line line = Ok r
                /\ 0 <= FastaIndex.length r /\ 0 <= FastaIndex.offset r
                /\ 0 <= FastaIndex.line_bases r
                /\ 0 <= FastaIndex.line_width r).
Proof.
  intros data. unfold parse_index_line. fold data.
  destruct (decide (length data = 5%nat)) as [Hlen|Hlen].
  2:{ rewrite FastaIndex_init_arity by done. simpl.
      repeat split; try done. intros [? _]. done. }
  destruct data as [|n [|f2 [|f3 [|f4 [|f5 [|? ?]]]]]]; try done.
  rewrite FastaIndex_init_fields. simpl drop.
  split; [|split; [done|split]].
  - split.
    + intros Hok. split; [done|].
      destruct (py_int _ f2) eqn:E2; [|done].
      destruct (py_int _ f3) eqn:E3; [|done].
      destruct (py_int _ f4) eqn:E4; [|done].
      destruct (py_int _ f5) eqn:E5; [|done].
      repeat constructor; cbv beta;
        [rewrite E2|rewrite E3|rewrite E4|rewrite E5]; done.
    + intros [_ Hall].
      inversion Hall as [|? ? H2 Hall3]; subst.
      inversion Hall3 as [|? ? H3 Hall4]; subst.
      inversion Hall4 as [|? ? H4 Hall5]; subst.
      inversion Hall5 as [|? ? H5 _]; subst.
      destruct (py_int _ f2) eqn:E2; [|done].
      destruct (py_int _ f3) eqn:E3; [|done].
      destruct (py_int _ f4) eqn:E4; [|done].
      destruct (py_int _ f5) eqn:E5; [|done].
      done.
  - intros _.
    destruct (py_int _ f2) eqn:E2; [|by rewrite (py_int_raises _ _ _ E2)].
    destruct (py_int _ f3) eqn:E3; [|by rewrite (py_int_raises _ _ _ E3)].
    destruct (py_int _ f4) eqn:E4; [|by rewrite (py_int_raises _ _ _ E4)].
    destruct (py_int _ f5) eqn:E5; [|by rewrite (py_int_raises _ _ _ E5)].
    done.
  - intros _ Hall.
    inversion Hall as [|? ? [D2 L2] Hall3]; subst.
    inversion Hall3 as [|? ? [D3 L3] Hall4]; subst.
    inversion Hall4 as [|? ? [D4 L4] Hall5]; subst.
    inversion Hall5 as [|? ? [D5 L5] _]; subst.
    destruct (decimal_py_int _ f2 D2 L2) as (v2 & -> & ?).
    destruct (decimal_py_int _ f3 D3 L3) as (v3 & -> & ?).
    destruct (decimal_py_int _ f4 D4 L4) as (v4 & -> & ?).
    destruct (decimal_py_int _ f5 D5 L5) as (v5 & -> & ?).
    simpl. eexists. split; [done|]. simpl. done.
Qed.

Lemma C9_index_line_witness :
  exists r,
    parse_index_line
      (text ("chr1" +:+ tab +:+ "100" +:+ tab +:+ "6" +:+ tab +:+ "50"
             +:+ tab +:+ "51" +:+ nl)) = Ok r
    /\ 0 <= FastaIndex.length r.
Proof.
  destruct (C9_index_line_parses_iff_five_fields_and_ints
              (text ("chr1" +:+ tab +:+ "100" +:+ tab +:+ "6" +:+ tab +:+ "50"
                     +:+ tab +:+ "51" +:+ nl)))
    as (_ & _ & _ & Hdec).
  destruct Hdec as (r & Hr & Hl & _).
  - reflexivity.
  - match goal with
    | |- Forall ?P ?l => let l' := eval vm_compute in l in change (Forall P l')
    end.
    repeat first [apply Forall_nil_2 | apply Forall_cons_2];
      (split; [reflexivity | right; vm_compute; discriminate]).
  - exists r. split; [exact Hr|exact Hl].
Defined.

(** C9, as the specification states it, fails: a line whose second field
    is [-5], which is not a non-negative integer, parses, and the length
    of the record is negative. *)
Lemma C9_counterexample :
  let line := text ("chr1" +:+ tab +:+ "-5" +:+ tab +:+ "0" +:+ tab +:+ "1"
                    +:+ tab +:+ "2" +:+ nl) in
  split_char TAB (rstrip_char LF line)
  = [text "chr1"; text "-5"; text "0"; text "1"; text "2"]
  /\ decimal_literal (text "-5") = false
  /\ parse_index_line line = Ok (FastaIndex.mk (text "chr1") (-5) 0 1 2).
Proof. vm_compute. repeat split; reflexivity. Qed.

(** ** The constructor of FastaFile and the branch for several processes *)

Lemma load_global_samtools_bin : load_global "samtools_bin" = Raise NameError.
Proof. vm_compute. reflexivity. Qed.

Lemma FastaFile_init_raises (fa_file : string) :
  FastaFile.init fa_file = Raise NameError.
Proof. unfold FastaFile.init. rewrite load_global_samtools_bin. done. Qed.

Lemma shlex_tokens_raises (s : list ascii) :
  forall state token quoted e,
    shlex_tokens s state token quoted = Raise e -> e = ValueError.
Proof.
  induction s as [|c s IH]; intros state token quoted e.
  - destruct state; simpl; congruence.
  - destruct state as [| | q | [q|]]; simpl;
      repeat case_match; try (by apply IH).
    destruct (shlex_tokens s ShWhite [] false) eqn:E; simpl; [done|].
    intros [= <-]. by eapply IH.
Qed.

Lemma shlex_split_raises (s : string) (e : exn) :
  shlex_split s = Raise e -> e = ValueError.
Proof.
  unfold shlex_split.
  destruct (shlex_tokens _ _ _ _) eqn:E; simpl; [done|].
  intros [= <-]. by eapply shlex_tokens_raises.
Qed.

(** C4, as the code has it. The constructor of FastaFile raises
    NameError on every argument. A call of mp_blat with num_proc other
    than 1 therefore fails: with ValueError, before anything else is done,
    when [shlex.split] refuses the option string, and otherwise with
    NameError once the temporary directory is made; in both cases the
    file system is as it was and no file was opened and no program run. *)
Theorem C4_parallel_branch_always_fails `{Externals}
    (reference_file fasta_file output_file : string) (num_proc : Z)
    (tmp_path blat_bin blat_options samtools_bin : string) (w : world) :
  num_proc <> 1 ->
  (forall fa_file, FastaFile.init fa_file = Raise NameError)
  /\ mp_blat reference_file fasta_file output_file num_proc tmp_path
             blat_bin blat_options samtools_bin w
     = match shlex_split blat_options with
       | Ok _ =>
           (Raise NameError,
            {| fs := fs w;
               trace := trace w
                        ++ [EvMkdtemp
                              (path_join "." (mkdtemp_name "mp_blat_tmp."))] |})
       | Raise _ => (Raise ValueError, w)
       end.
Proof.
  intros Hn. split; [apply FastaFile_init_raises|].
  unfold mp_blat, Blat.init, bind, lift.
  destruct (shlex_split blat_options) as [opts|e] eqn:Hopts; cbn [rbind].
  - destruct (Z.eqb_spec num_proc 1); [done|].
    unfold TemporaryDirectory, bind, log, ret.
    rewrite FastaFile_init_raises. done.
  - by rewrite (shlex_split_raises _ _ Hopts).
Qed.

Lemma C4_parallel_branch_witness :
  (mp_blat "ref.fa" "s.fa" "out.psl" 4 "." "blat" "-minScore=20 -out=psl"
           "samtools" (world_of [("s.fa", text ">s")])).1
  = Raise NameError.
Proof.
  destruct (C4_parallel_branch_always_fails
              "ref.fa" "s.fa" "out.psl" 4 "." "blat" "-minScore=20 -out=psl"
              "samtools" (world_of [("s.fa", text ">s")]) ltac:(lia))
    as [_ Hrun].
  rewrite Hrun. reflexivity.
Defined.

(** C4, as it is stated, fails: with an option string that has an
    unclosed quote the call fails with ValueError, not NameError. *)
Lemma C4_counterexample :
  mp_blat "ref.fa" "s.fa" "out.psl" 2 "." "blat" "-out='psl" "samtools"
          (world_of [("s.fa", text ">s")])
  = (Raise ValueError, world_of [("s.fa", text ">s")]).
Proof. vm_compute. reflexivity. Qed.

(** ** The exit status of the alignment program *)

(** C5 fails on the code. With an alignment program that exits with
    status 1, the call for one process returns normally, and so do the
    steps of the branch for several processes from [split] on, which
    merge the truncated results into the output. *)
Theorem C5_exit_status_is_dropped :
  let direct :=
    @mp_blat failing_externals "ref.fa" "s.fa" "out.psl" 1 "." "blat"
             EmptyString
             "samtools" two_record_world in
  let parallel :=
    @mp_blat_parallel failing_externals
      (@Blat.call failing_externals (Blat.mk "blat" []) "ref.fa")
      (FastaFile_object "s.fa" "samtools") "out.psl" 2 "tmp" "samtools"
      two_record_world in
  direct.1 = Ok tt
  /\ trace direct.2 = [EvExec ["blat"; "ref.fa"; "s.fa"; "out.psl"] 1]%string
  /\ parallel.1 = Ok tt
  /\ fs parallel.2 !! "out.psl"%string
     = Some (text ("psLayout version 3" +:+ nl))
  /\ trace parallel.2
     = [EvExists "s.fa.fai"; EvOpenRead "s.fa.fai"; EvOpenRead "s.fa";
        EvOpenWrite "tmp/s.fa.part_1"; EvOpenWrite "tmp/s.fa.part_2";
        EvExec ["blat"; "ref.fa"; "tmp/s.fa.part_1"; "tmp/s.fa.part_1.psl"] 1;
        EvExec ["blat"; "ref.fa"; "tmp/s.fa.part_2"; "tmp/s.fa.part_2.psl"] 1;
        EvOpenWrite "out.psl"; EvOpenRead "tmp/s.fa.part_1.psl";
        EvOpenRead "tmp/s.fa.part_1.psl";
        EvOpenRead "tmp/s.fa.part_2.psl"]%string.
Proof. vm_compute. repeat split; reflexivity. Qed.

(** ** The merge of the results *)

Lemma readline_split (s : list ascii) : (readline s).1 ++ (readline s).2 = s.
Proof.
  induction s as [|c s IH]; simpl; [done|].
  destruct (is_char LF c); simpl; [done|].
  destruct (readline s) as [l r]. simpl in *. by rewrite IH.
Qed.

Lemma read_lines_split (n : nat) (s : list ascii) :
  (read_lines n s).1 ++ (read_lines n s).2 = s.
Proof.
  revert s. induction n as [|n IH]; intros s; simpl; [done|].
  pose proof (readline_split s) as Hl.
  destruct (readline s) as [l r]. simpl in Hl.
  specialize (IH r). destruct (read_lines n r) as [ls r']. simpl in *.
  by rewrite <- app_assoc, IH.
Qed.

Lemma header_body_split (data : list ascii) :
  header_block data ++ result_body data = data.
Proof. apply read_lines_split. Qed.

Lemma drop_header_block (data : list ascii) :
  drop (length (header_block data)) data = result_body data.
Proof.
  rewrite <- (header_body_split data) at 2. by rewrite drop_app_length.
Qed.

Lemma bind_ok {A B} (c : M A) (k : A -> M B) (w w' : world) (a : A) :
  c w = (Ok a, w') -> bind c k w = k a w'.
Proof. intros Hc. unfold bind. by rewrite Hc. Qed.

Lemma bind_raise {A B} (c : M A) (k : A -> M B) (w w' : world) (e : exn) :
  c w = (Raise e, w') -> bind c k w = (Raise e, w').
Proof. intros Hc. unfold bind. by rewrite Hc. Qed.

Lemma open_rb_ok (path : string) (data : list ascii) (w : world) :
  fs w !! path = Some data ->
  open_rb path w
  = (Ok data, {| fs := fs w; trace := trace w ++ [EvOpenRead path] |}).
Proof.
  intros Hp. unfold open_rb, bind, log, get_file, ret. cbn [fs trace].
  by rewrite Hp.
Qed.

Lemma open_rb_missing (path : string) (w : world) :
  fs w !! path = None ->
  open_rb path w
  = (Raise FileNotFoundError,
     {| fs := fs w; trace := trace w ++ [EvOpenRead path] |}).
Proof.
  intros Hp. unfold open_rb, bind, log, get_file, raise. cbn [fs trace].
  by rewrite Hp.
Qed.

Lemma open_w_spec (path : string) (w : world) :
  open_w path w
  = (Ok tt, {| fs := <[path := []]> (fs w);
               trace := trace w ++ [EvOpenWrite path] |}).
Proof. done. Qed.

Lemma file_write_spec (path : string) (data : list ascii) (w : world) :
  file_write path data w
  = (Ok tt, {| fs := <[path := default [] (fs w !! path) ++ data]> (fs w);
               trace := trace w |}).
Proof. done. Qed.

Lemma merge_loop (output_file : string) (n : nat) (out_files : list string)
    (contents : list (list ascii)) :
  Forall2 (fun _ _ => True) out_files contents ->
  forall (w : world) (acc : list ascii),
    Forall2 (fun f c => f <> output_file /\ fs w !! f = Some c)
            out_files contents ->
    fs w !! output_file = Some acc ->
    for_each out_files (fun file_ =>
      let* res_in := open_rb file_ in
      file_write output_file (drop n res_in)) w
    = (Ok tt,
       {| fs := <[output_file := acc ++ concat (drop n <$> contents)]> (fs w);
          trace := trace w ++ (EvOpenRead <$> out_files) |}).
Proof.
  induction 1 as [|f c files contents _ _ IH]; intros w acc Hfiles Hacc.
  - simpl. rewrite !app_nil_r. rewrite insert_id by done.
    by destruct w.
  - inversion Hfiles as [|? ? ? ? [Hne Hf] Hrest]; subst.
    cbn [for_each].
    erewrite bind_ok;
      [|erewrite bind_ok; [apply file_write_spec|by apply open_rb_ok]].
    cbn [fs trace]. rewrite Hacc. cbn [default].
    rewrite (IH _ (acc ++ drop n c)); cbn [fs trace].
    + rewrite insert_insert_eq. cbn [fmap list_fmap concat].
      rewrite (app_assoc acc), <- (app_assoc (trace w)). done.
    + eapply Forall2_impl; [exact Hrest|]. cbn beta.
      intros f' c' [Hne' Hf']. split; [done|].
      by rewrite lookup_insert_ne.
    + by rewrite lookup_insert_eq.
Qed.

Lemma merge_results_run (output_file f0 : string) (files : list string)
    (c0 : list ascii) (contents : list (list ascii)) (w : world) :
  Forall2 (fun f c => f <> output_file /\ fs w !! f = Some c)
          (f0 :: files) (c0 :: contents) ->
  merge_results output_file (f0 :: files) w
  = (Ok tt,
     {| fs := <[output_file :=
                  header_block c0
                  ++ concat (drop (length (header_block c0))
                               <$> c0 :: contents)]> (fs w);
        trace := trace w ++ [EvOpenWrite output_file; EvOpenRead f0]
                 ++ (EvOpenRead <$> f0 :: files) |}).
Proof.
  intros Hall.
  assert (Hf0 : f0 <> output_file /\ fs w !! f0 = Some c0)
    by (by inversion Hall).
  destruct Hf0 as [Hne0 Hf0].
  unfold merge_results.
  erewrite bind_ok; [|apply open_w_spec].
  erewrite bind_ok; [|unfold lift; by rewrite (py_getitem_nat _ 0%nat f0)].
  erewrite bind_ok;
    [|apply open_rb_ok; cbn [fs]; by rewrite lookup_insert_ne].
  cbn [fs trace]. unfold header_block.
  destruct (read_lines 5 c0) as [header rest] eqn:Hread. cbn [fst].
  erewrite bind_ok; [|apply file_write_spec].
  cbn [fs trace]. rewrite lookup_insert_eq. cbn [default app].
  rewrite (merge_loop output_file (length header) (f0 :: files)
             (c0 :: contents) ltac:(eapply Forall2_impl; [exact Hall|done])
             _ header); cbn [fs trace].
  - rewrite !insert_insert_eq.
    rewrite <- (app_assoc (trace w ++ [EvOpenWrite output_file])).
    rewrite <- (app_assoc (trace w)). done.
  - eapply Forall2_impl; [exact Hall|]. cbn beta.
    intros f c [Hnf Hf]. split; [done|].
    by rewrite !lookup_insert_ne.
  - by rewrite lookup_insert_eq.
Qed.

(** C3, as the code has it. For N >= 1 result files that exist and an
    output path that is none of them, the merge returns normally and the
    output holds the first five lines of the first result file followed,
    for every result file in order, by the bytes of that file from the
    byte offset [length h] on, where [h] is the header of the FIRST file.
    When the first five lines of every result file are as long as those
    of the first file, these are the bytes that follow the file's own
    first five lines, and no header line of a later file is in the
    output. *)
Theorem C3_merge_header_once_bodies_in_order
    (output_file : string) (out_files : list string)
    (contents : list (list ascii)) (w : world) :
  out_files <> [] ->
  output_file ∉ out_files ->
  Forall2 (fun f c => fs w !! f = Some c) out_files contents ->
  let h := header_block (default [] (head contents)) in
  exists w',
    merge_results output_file out_files w = (Ok tt, w')
    /\ fs w' !! output_file
       = Some (h ++ concat (drop (length h) <$> contents))
    /\ (forall f, f <> output_file -> fs w' !! f = fs w !! f)
    /\ trace w'
       = trace w ++ [EvOpenWrite output_file]
         ++ (EvOpenRead <$> take 1 out_files) ++ (EvOpenRead <$> out_files)
    /\ (Forall (fun c => length (header_block c) = length h) contents ->
        fs w' !! output_file
        = Some (h ++ concat (result_body <$> contents))).
Proof.
  intros Hne Hout Hfiles h.
  assert (Hall : Forall2 (fun f c => f <> output_file
                                     /\ fs w !! f = Some c)
                         out_files contents).
  { clear -Hfiles Hout. revert Hout.
    induction Hfiles as [|f c fl cl Hf _ IH]; intros Hout; constructor.
    - split; [|done]. intros ->. apply Hout. by left.
    - apply IH. intros Hin. apply Hout. by right. }
  destruct Hall as [|f0 c0 files contents Hf0 Hrest]; [done|].
  cbn [head default] in h. unfold id in h. subst h.
  eexists. split; [apply merge_results_run; by constructor|].
  cbn [fs trace]. rewrite lookup_insert_eq.
  split; [done|]. split; [|split; [done|]].
  - intros f Hf. by rewrite lookup_insert_ne.
  - intros Hlen. do 3 f_equal.
    apply Forall_fmap_ext. eapply Forall_impl; [exact Hlen|].
    cbn beta. intros c Hc. rewrite <- Hc. apply drop_header_block.
Qed.

Lemma C3_merge_witness :
  let a := text ("h1" +:+ nl +:+ "h2" +:+ nl +:+ "h3" +:+ nl +:+ "h4" +:+ nl
                 +:+ "h5" +:+ nl +:+ "rowA" +:+ nl) in
  let b := text ("h1" +:+ nl +:+ "h2" +:+ nl +:+ "h3" +:+ nl +:+ "h4" +:+ nl
                 +:+ "h5" +:+ nl +:+ "rowB" +:+ nl) in
  exists w',
    merge_results "out.psl" ["a.psl"; "b.psl"]
                  (world_of [("a.psl", a); ("b.psl", b)]) = (Ok tt, w')
    /\ fs w' !! "out.psl"%string
       = Some (text ("h1" +:+ nl +:+ "h2" +:+ nl +:+ "h3" +:+ nl +:+ "h4"
                     +:+ nl +:+ "h5" +:+ nl +:+ "rowA" +:+ nl +:+ "rowB"
                     +:+ nl)).
Proof.
  intros a b.
  destruct (C3_merge_header_once_bodies_in_order
              "out.psl" ["a.psl"; "b.psl"] [a; b]
              (world_of [("a.psl", a); ("b.psl", b)]))
    as (w' & Hrun & Hout & _).
  - discriminate.
  - vm_compute. intros Hin.
    inversion Hin as [|? ? ? Hin']; subst.
    inversion Hin' as [|? ? ? Hin'']; subst. inversion Hin''.
  - repeat constructor.
  - exists w'. split; [exact Hrun|]. rewrite Hout. reflexivity.
Defined.

(** C3, as it is stated, fails: when the header of the second result
    file is longer than that of the first, the bytes taken from the
    second file are not those that follow its own first five lines, and
    four of its header lines are in the output. *)
Lemma C3_counterexample :
  let a := text ("h1" +:+ nl +:+ "h2" +:+ nl +:+ "h3" +:+ nl +:+ "h4" +:+ nl
                 +:+ "h5" +:+ nl +:+ "rowA" +:+ nl) in
  let b := text ("HEADER-ONE-LONG" +:+ nl +:+ "h2" +:+ nl +:+ "h3" +:+ nl
                 +:+ "h4" +:+ nl +:+ "h5" +:+ nl +:+ "rowB" +:+ nl) in
  let run := merge_results "out.psl" ["a.psl"; "b.psl"]
               (world_of [("a.psl", a); ("b.psl", b)]) in
  run.1 = Ok tt
  /\ fs run.2 !! "out.psl"%string
     = Some (text ("h1" +:+ nl +:+ "h2" +:+ nl +:+ "h3" +:+ nl +:+ "h4"
                   +:+ nl +:+ "h5" +:+ nl +:+ "rowA" +:+ nl
                   +:+ nl +:+ "h2" +:+ nl +:+ "h3" +:+ nl +:+ "h4" +:+ nl
                   +:+ "h5" +:+ nl +:+ "rowB" +:+ nl))
  /\ fs run.2 !! "out.psl"%string
     <> Some (header_block a ++ result_body a ++ result_body b).
Proof. vm_compute. repeat split; try reflexivity. discriminate. Qed.

(** ** The file splitter *)

Lemma is_char_eq (a c : ascii) : is_char a c = true -> c = a.
Proof.
  unfold is_char, code. intros Hc. apply Z.eqb_eq in Hc.
  apply N2Z.inj in Hc.
  rewrite <- (ascii_N_embedding c), <- (ascii_N_embedding a). by rewrite Hc.
Qed.

Lemma universal_newlines_no_cr (s : list ascii) :
  no_cr s -> universal_newlines false s = s.
Proof.
  induction 1 as [|c s Hc Hs IH]; simpl; [done|].
  rewrite Hc. destruct (is_char LF c) eqn:Hlf.
  - apply is_char_eq in Hlf as ->. by rewrite IH.
  - by rewrite IH.
Qed.

Lemma open_r_ok (path : string) (data : list ascii) (w : world) :
  fs w !! path = Some data ->
  open_r (Some path) w
  = (Ok (universal_newlines false data),
     {| fs := fs w; trace := trace w ++ [EvOpenRead path] |}).
Proof.
  intros Hp. unfold open_r. erewrite bind_ok; [|by apply open_rb_ok]. done.
Qed.

Lemma has_index_found (self : FastaFile.t) (data : list ascii) (w : world) :
  fs w !! (FastaFile.original_file self +:+ ".fai") = Some data ->
  FastaFile.has_index self w
  = (Ok (true,
         FastaFile.set_index_file self
           (Some (FastaFile.original_file self +:+ ".fai"))),
     {| fs := fs w;
        trace := trace w
                 ++ [EvExists (FastaFile.original_file self +:+ ".fai")] |}).
Proof.
  intros Hp. unfold FastaFile.has_index, path_exists, bind, log, get_file, ret.
  cbn [fs trace]. by rewrite Hp.
Qed.

Lemma split_with_index `{Externals} (self : FastaFile.t) (P : Z)
    (work_dir samtools_bin : string) (w : world)
    (idx src : list ascii) (fa_idx_data : list FastaIndex.t) (p : plan) :
  fs w !! (FastaFile.original_file self +:+ ".fai") = Some idx ->
  FastaFile.read_index (universal_newlines false idx) = Ok fa_idx_data ->
  split_plan fa_idx_data P = Ok p ->
  fs w !! FastaFile.original_file self = Some src ->
  FastaFile.split self P work_dir samtools_bin w
  = (let* _ := FastaFile.write_parts (universal_newlines false src)
                 (zip (FastaFile.part_files self P work_dir) (block_size p)) in
     ret (FastaFile.set_files
            (FastaFile.set_index_file self
               (Some (FastaFile.original_file self +:+ ".fai")))
            (Some (FastaFile.part_files self P work_dir))))
      {| fs := fs w;
         trace := trace w
                  ++ [EvExists (FastaFile.original_file self +:+ ".fai");
                      EvOpenRead (FastaFile.original_file self +:+ ".fai");
                      EvOpenRead (FastaFile.original_file self)] |}.
Proof.
  intros Hidx Hread Hplan Hsrc. unfold FastaFile.split.
  match goal with |- _ = ?r => set (rhs := r) end.
  erewrite bind_ok; [|by eapply has_index_found]. cbv beta iota.
  erewrite bind_ok; [|reflexivity]. cbv beta iota.
  erewrite bind_ok; [|by apply open_r_ok]. cbv beta iota.
  erewrite bind_ok; [|unfold lift; by rewrite Hread]. cbv beta iota.
  erewrite bind_ok; [|unfold lift; by rewrite Hplan]. cbv beta iota.
  erewrite bind_ok; [|by apply open_r_ok]. cbv beta iota.
  cbn [fs trace FastaFile.files FastaFile.set_files default
       FastaFile.original_file FastaFile.set_index_file].
  subst rhs. rewrite <- !app_assoc. done.
Qed.

Lemma write_parts_spec (jobs : list (string * Z)) :
  forall (fa_in : list ascii) (w : world),
  exists w',
    FastaFile.write_parts fa_in jobs w = (Ok tt, w')
    /\ trace w' = trace w ++ (EvOpenWrite <$> jobs.*1)
    /\ (forall f, f ∉ jobs.*1 -> fs w' !! f = fs w !! f)
    /\ (NoDup jobs.*1 ->
        Forall2 (fun f b => fs w' !! f = Some b)
                jobs.*1 (read_blocks fa_in jobs.*2)).
Proof.
  induction jobs as [|[file_ bsize] jobs IH]; intros fa_in w.
  - exists w. simpl. rewrite app_nil_r. repeat split; done.
  - cbn [FastaFile.write_parts].
    erewrite bind_ok; [|apply open_w_spec].
    cbn [fmap list_fmap fst snd read_blocks].
    destruct (stream_read fa_in bsize) as [data fa_in'] eqn:Hread.
    erewrite bind_ok; [|apply file_write_spec].
    cbn [fs trace]. rewrite lookup_insert_eq, insert_insert_eq.
    cbn [default app].
    match goal with
    | |- context [FastaFile.write_parts fa_in' jobs ?w1] =>
        destruct (IH fa_in' w1) as (w' & Hrun & Htrace & Hother & Hparts)
    end.
    exists w'. split; [done|]. cbn [fs trace] in *. split; [|split].
    + rewrite Htrace, <- app_assoc. done.
    + intros f Hf. apply not_elem_of_cons in Hf as [Hne Hf].
      rewrite Hother by done. by rewrite lookup_insert_ne.
    + intros Hnd. apply NoDup_cons in Hnd as [Hfresh Hnd].
      constructor; [|by apply Hparts].
      rewrite Hother by done. by rewrite lookup_insert_eq.
Qed.

Lemma read_blocks_concat (sizes : list Z) :
  forall fa_in,
    Forall (fun bsize => 0 <= bsize) sizes ->
    concat (read_blocks fa_in sizes) = take (Z.to_nat (py_sum sizes)) fa_in.
Proof.
  induction sizes as [|b sizes IH]; intros fa_in Hall; simpl; [done|].
  inversion Hall as [|? ? Hb Hrest]; subst.
  assert (Hs : 0 <= py_sum sizes).
  { clear -Hrest. induction Hrest; simpl; lia. }
  unfold stream_read. destruct (Z.ltb_spec b 0); [lia|].
  simpl. rewrite IH by done.
  replace (Z.to_nat (b + py_sum sizes))
    with (Z.to_nat b + Z.to_nat (py_sum sizes))%nat by lia.
  apply take_take_drop.
Qed.

(** ** One part against the direct call *)


Lemma Blat_call_spec `{Externals} (b : Blat.t)
    (ref_file fa_file out_file : string) (w : world) (returncode : Z)
    (out : option (list ascii)) :
  blat_exec (Blat.blat_bin b) (Blat.blat_options b)
            (fs w !! ref_file) (fs w !! fa_file) = (returncode, out) ->
  Blat.call b ref_file fa_file out_file w
  = (Ok returncode,
     {| fs := match out with
              | Some data => <[out_file := data]> (fs w)
              | None => fs w
              end;
        trace := trace w
                 ++ [EvExec ([Blat.blat_bin b; ref_file; fa_file; out_file]
                               ++ Blat.blat_options b) returncode] |}).
Proof.
  intros Hexec. unfold Blat.call, Blat._run, bind, get_file.
  rewrite Hexec. destruct out; done.
Qed.







(** ** The parts against the source *)

Lemma string_app_assoc (a b c : string) :
  (a +:+ b) +:+ c = a +:+ b +:+ c.
Proof.
  induction a as [|x a IH]; [reflexivity|].
  change (String x ((a +:+ b) +:+ c) = String x (a +:+ b +:+ c)).
  by rewrite IH.
Qed.

Lemma path_join_relative (a b : string) (c : ascii) (r : list ascii) :
  list_ascii_of_string b = c :: r -> is_char SLASH c = false ->
  path_join a b
  = match last (list_ascii_of_string a) with
    | None => b
    | Some d => if is_char SLASH d then a +:+ b else a +:+ "/" +:+ b
    end.
Proof. intros Hb Hc. unfold path_join. by rewrite Hb, Hc. Qed.

Lemma path_join_absolute (a b : string) (c : ascii) (r : list ascii) :
  list_ascii_of_string b = c :: r -> is_char SLASH c = true ->
  path_join a b = b.
Proof. intros Hb Hc. unfold path_join. by rewrite Hb, Hc. Qed.

Lemma path_join_prefix (a n : string) :
  exists q, forall s,
    path_join a (n +:+ ".part_" +:+ s) = q +:+ n +:+ ".part_" +:+ s.
Proof.
  assert (Hhead : exists c, forall s, exists r,
             list_ascii_of_string (n +:+ ".part_" +:+ s) = c :: r).
  { destruct n as [|c n].
    - exists "."%char. intros s. eexists. reflexivity.
    - exists c. intros s. eexists. reflexivity. }
  destruct Hhead as [c Hhead].
  destruct (is_char SLASH c) eqn:Hc.
  - exists EmptyString. intros s. destruct (Hhead s) as [r Hr].
    by rewrite (path_join_absolute _ _ c r).
  - destruct (last (list_ascii_of_string a)) as [d|] eqn:Hl.
    + destruct (is_char SLASH d) eqn:Hd.
      * exists a. intros s. destruct (Hhead s) as [r Hr].
        by rewrite (path_join_relative _ _ c r), Hl, Hd.
      * exists (a +:+ "/"). intros s. destruct (Hhead s) as [r Hr].
        rewrite (path_join_relative _ _ c r), Hl, Hd by done.
        by rewrite string_app_assoc.
    + exists EmptyString. intros s. destruct (Hhead s) as [r Hr].
      by rewrite (path_join_relative _ _ c r), Hl.
Qed.

Lemma part_files_NoDup (self : FastaFile.t) (num_files : Z)
    (work_dir : string) :
  NoDup (FastaFile.part_files self num_files work_dir).
Proof.
  unfold FastaFile.part_files, py_range2.
  destruct (path_join_prefix work_dir (FastaFile.original_filename self))
    as [q Hq].
  apply NoDup_fmap_2_strong; [|apply NoDup_seqZ].
  intros i j _ _. rewrite !Hq. intros Heq.
  do 3 apply String.app_inj in Heq.
  by apply pretty_Z_inj in Heq.
Qed.

Lemma part_files_length (self : FastaFile.t) (num_files : Z)
    (work_dir : string) :
  length (FastaFile.part_files self num_files work_dir) = Z.to_nat num_files.
Proof.
  unfold FastaFile.part_files, py_range2.
  rewrite length_fmap, length_seqZ. lia.
Qed.

Lemma split_runs `{Externals} (self : FastaFile.t)
    (P : Z) (work_dir samtools_bin : string) (w : world)
    (idx src : list ascii) (fa_idx_data : list FastaIndex.t) (p : plan) :
  0 < P ->
  fs w !! (FastaFile.original_file self +:+ ".fai") = Some idx ->
  FastaFile.read_index (universal_newlines false idx) = Ok fa_idx_data ->
  split_plan fa_idx_data P = Ok p ->
  fs w !! FastaFile.original_file self = Some src ->
  exists self' w',
    FastaFile.split self P work_dir samtools_bin w = (Ok self', w')
    /\ FastaFile.files self'
       = Some (FastaFile.part_files self P work_dir)
    /\ Forall2 (fun f b => fs w' !! f = Some b)
               (FastaFile.part_files self P work_dir)
               (read_blocks (universal_newlines false src) (block_size p))
    /\ trace w'
       = trace w
         ++ [EvExists (FastaFile.original_file self +:+ ".fai");
             EvOpenRead (FastaFile.original_file self +:+ ".fai");
             EvOpenRead (FastaFile.original_file self)]
         ++ (EvOpenWrite <$> FastaFile.part_files self P work_dir).
Proof.
  intros HP Hidx Hread Hplan Hsrc.
  destruct (split_plan_sound fa_idx_data P p HP Hplan)
    as (r & e & _ & _ & _ & _ & _ & Hlen & _).
  set (jobs := zip (FastaFile.part_files self P work_dir) (block_size p)).
  assert (Hfst : jobs.*1 = FastaFile.part_files self P work_dir).
  { apply fst_zip. rewrite part_files_length, Hlen. lia. }
  assert (Hsnd : jobs.*2 = block_size p).
  { apply snd_zip. rewrite part_files_length, Hlen. lia. }
  destruct (write_parts_spec jobs (universal_newlines false src)
              {| fs := fs w;
                 trace := trace w
                   ++ [EvExists (FastaFile.original_file self +:+ ".fai");
                       EvOpenRead (FastaFile.original_file self +:+ ".fai");
                       EvOpenRead (FastaFile.original_file self)] |})
    as (w' & Hrun & Htrace & _ & Hparts).
  rewrite Hfst, Hsnd in Hparts. rewrite Hfst in Htrace.
  specialize (Hparts (part_files_NoDup _ _ _)).
  eexists _, w'. split; [|split; [|split; [exact Hparts|]]].
  - rewrite (split_with_index self P work_dir samtools_bin w idx src
               fa_idx_data p Hidx Hread Hplan Hsrc).
    erewrite bind_ok; [reflexivity|exact Hrun].
  - done.
  - rewrite Htrace. cbn [trace]. by rewrite <- app_assoc.
Qed.

(** The file splitter on a source without carriage return: when the
    index is there and parses, the plan has no negative block size and
    the source is there, [split] writes the parts, and the parts in order
    make up the source over the indexed extent. *)
Lemma split_parts_make_up_the_extent `{Externals} (self : FastaFile.t)
    (P : Z) (work_dir samtools_bin : string) (w : world)
    (idx src : list ascii) (fa_idx_data : list FastaIndex.t) (p : plan) :
  0 < P ->
  fs w !! (FastaFile.original_file self +:+ ".fai") = Some idx ->
  FastaFile.read_index (universal_newlines false idx) = Ok fa_idx_data ->
  split_plan fa_idx_data P = Ok p ->
  Forall (fun bsize => 0 <= bsize) (block_size p) ->
  fs w !! FastaFile.original_file self = Some src ->
  no_cr src ->
  exists self' w' parts r e,
    FastaFile.split self P work_dir samtools_bin w = (Ok self', w')
    /\ FastaFile.files self'
       = Some (FastaFile.part_files self P work_dir)
    /\ Forall2 (fun f b => fs w' !! f = Some b)
               (FastaFile.part_files self P work_dir) parts
    /\ last fa_idx_data = Some r /\ FastaIndex.end_pos r = Ok e
    /\ concat parts = take (Z.to_nat e) src.
Proof.
  intros HP Hidx Hread Hplan Hsizes Hsrc Hcr.
  destruct (split_plan_sound fa_idx_data P p HP Hplan)
    as (r & e & Hlast & He & _ & Hsum & _).
  destruct (split_runs self P work_dir samtools_bin w idx src fa_idx_data p
              HP Hidx Hread Hplan Hsrc)
    as (self' & w' & Hrun & Hfiles & Hparts & _).
  rewrite universal_newlines_no_cr in Hparts by done.
  exists self', w', (read_blocks src (block_size p)), r, e.
  repeat split; try done.
  rewrite read_blocks_concat by done. by rewrite Hsum.
Qed.

(** ** More parts than records *)








(** C1 fails on the code. [split] opens the source as text, so that the
    sizes of the plan count characters after the translation of line
    ends: for a source of two records with CR LF line ends, cut in two
    parts, the parts hold LF line ends, the first part ends inside the
    second record, and the parts in order are not the first
    end_pos(last record) = 15 bytes of the source. *)
Theorem C1_text_mode_split_loses_bytes :
  let run := FastaFile.split (FastaFile_object "s.fa" "samtools") 2
               "tmp" "samtools" crlf_world in
  FastaFile.read_index
    (universal_newlines false (default [] (fs crlf_world !! "s.fa.fai"%string)))
  = Ok [FastaIndex.mk (text "a") 2 4 2 4; FastaIndex.mk (text "b") 2 12 2 4]
  /\ split_plan [FastaIndex.mk (text "a") 2 4 2 4;
                 FastaIndex.mk (text "b") 2 12 2 4] 2
     = Ok {| num_list := [1; 1]; splice_pos := [7]; block_size := [7; 8] |}
  /\ is_ok run.1 = true
  /\ fs run.2 !! "tmp/s.fa.part_1"%string
     = Some (text (">a" +:+ nl +:+ "AC" +:+ nl +:+ ">"))
  /\ fs run.2 !! "tmp/s.fa.part_2"%string
     = Some (text ("b" +:+ nl +:+ "GT" +:+ nl))
  /\ take 15 crlf_source
     = text (">a" +:+ cr +:+ nl +:+ "AC" +:+ cr +:+ nl
             +:+ ">b" +:+ cr +:+ nl +:+ "GT" +:+ cr)
  /\ text (">a" +:+ nl +:+ "AC" +:+ nl +:+ ">")
     ++ text ("b" +:+ nl +:+ "GT" +:+ nl)
     <> take 15 crlf_source.
Proof. vm_compute. repeat split; try reflexivity. discriminate. Qed.

(** * Further properties of the code *)

(** ** The index of the source *)



Lemma has_index_missing (self : FastaFile.t) (w : world) :
  fs w !! (FastaFile.original_file self +:+ ".fai") = None ->
  FastaFile.has_index self w
  = (Ok (false, self),
     {| fs := fs w;
        trace := trace w
                 ++ [EvExists (FastaFile.original_file self +:+ ".fai")] |}).
Proof.
  intros Hp. unfold FastaFile.has_index, path_exists, bind, log, get_file, ret.
  cbn [fs trace]. by rewrite Hp.
Qed.

Lemma create_index_spec `{Externals} (self : FastaFile.t)
    (samtools_bin : string) (w : world) (returncode : Z)
    (out : option (list ascii)) :
  faidx_exec samtools_bin (fs w !! FastaFile.original_file self)
  = (returncode, out) ->
  FastaFile.create_index self samtools_bin w
  = (Ok (returncode,
         if returncode =? 0
         then FastaFile.set_index_file self
                (Some (FastaFile.original_file self +:+ ".fai"))
         else self),
     {| fs := match out with
              | Some data =>
                  <[FastaFile.original_file self +:+ ".fai" := data]> (fs w)
              | None => fs w
              end;
        trace := trace w
                 ++ [EvExec [samtools_bin; "faidx";
                             FastaFile.original_file self] returncode] |}).
Proof.
  intros Hgen. unfold FastaFile.create_index, bind, get_file.
  rewrite Hgen. destruct out as [data|];
    unfold set_file, log, ret; cbn [fs trace];
    destruct (returncode =? 0); done.
Qed.

(** X2. When the index file is not there and the index generator exits
    with a status other than 0, [split] (on an object whose [index_file]
    is [None], as the constructor leaves it) raises TypeError from
    [open(None)]: the source is not opened, no part is written, and the
    only change to the file system is what the generator wrote. *)
Theorem X2_split_failed_index_generation_is_type_error `{Externals}
    (self : FastaFile.t) (num_files : Z) (work_dir samtools_bin : string)
    (w : world) :
  FastaFile.index_file self = None ->
  fs w !! (FastaFile.original_file self +:+ ".fai") = None ->
  (faidx_exec samtools_bin (fs w !! FastaFile.original_file self)).1 <> 0 ->
  let gen := faidx_exec samtools_bin (fs w !! FastaFile.original_file self) in
  FastaFile.split self num_files work_dir samtools_bin w
  = (Raise TypeError,
     {| fs := match gen.2 with
              | Some data =>
                  <[FastaFile.original_file self +:+ ".fai" := data]> (fs w)
              | None => fs w
              end;
        trace := trace w
                 ++ [EvExists (FastaFile.original_file self +:+ ".fai");
                     EvExec [samtools_bin; "faidx";
                             FastaFile.original_file self] gen.1] |}).
Proof.
  intros Hnone Hidx Hrc gen. unfold FastaFile.split.
  erewrite bind_ok; [|by apply has_index_missing]. cbv beta iota.
  erewrite bind_ok.
  2:{ erewrite bind_ok;
        [|apply (create_index_spec self samtools_bin _ gen.1 gen.2);
          apply surjective_pairing].
      reflexivity. }
  cbv beta iota.
  destruct (Z.eqb_spec gen.1 0) as [Hz|_]; [done|].
  rewrite Hnone. unfold open_r, raise. cbn [fs trace].
  by rewrite <- app_assoc.
Qed.

Lemma X2_split_failed_index_witness :
  (FastaFile.split (FastaFile_object "s.fa" "samtools") 2 "tmp" "samtools"
     (world_of [("s.fa", text ">s")])).1 = Raise TypeError.
Proof.
  rewrite (@X2_split_failed_index_generation_is_type_error copy_externals
             (FastaFile_object "s.fa" "samtools") 2 "tmp" "samtools"
             (world_of [("s.fa", text ">s")]) eq_refl eq_refl
             ltac:(vm_compute; discriminate)).
  reflexivity.
Defined.



(** ** The number of parts asked for *)

Lemma split_index_read `{Externals} (self : FastaFile.t) (P : Z)
    (work_dir samtools_bin : string) (w : world)
    (idx : list ascii) (fa_idx_data : list FastaIndex.t) :
  fs w !! (FastaFile.original_file self +:+ ".fai") = Some idx ->
  FastaFile.read_index (universal_newlines false idx) = Ok fa_idx_data ->
  FastaFile.split self P work_dir samtools_bin w
  = (let* p := lift (split_plan fa_idx_data P) in
     let self' :=
       FastaFile.set_files
         (FastaFile.set_index_file self
            (Some (FastaFile.original_file self +:+ ".fai")))
         (Some (FastaFile.part_files self P work_dir)) in
     let* fa_in := open_r (Some (FastaFile.original_file self)) in
     let* _ := FastaFile.write_parts fa_in
                 (zip (FastaFile.part_files self P work_dir)
                      (block_size p)) in
     ret self')
      {| fs := fs w;
         trace := trace w
                  ++ [EvExists (FastaFile.original_file self +:+ ".fai");
                      EvOpenRead (FastaFile.original_file self +:+ ".fai")] |}.
Proof.
  intros Hidx Hread. unfold FastaFile.split.
  match goal with |- _ = ?r => set (rhs := r) end.
  erewrite bind_ok; [|by eapply has_index_found]. cbv beta iota.
  erewrite bind_ok; [|reflexivity]. cbv beta iota.
  erewrite bind_ok; [|by apply open_r_ok]. cbv beta iota.
  erewrite bind_ok; [|unfold lift; by rewrite Hread]. cbv beta iota.
  cbn [fs trace]. subst rhs. rewrite <- !app_assoc. done.
Qed.


Lemma split_plan_negative (fa_idx_data : list FastaIndex.t) (P : Z) :
  P < 0 ->
  split_plan fa_idx_data P
  = let? block_size := plan_block_size fa_idx_data [] in
    Ok {| num_list := []; splice_pos := []; block_size := block_size |}.
Proof.
  intros HP. unfold split_plan, plan_num_list, py_divmod.
  destruct (Z.eqb_spec P 0); [lia|]. cbn [rbind].
  pose proof (Z.mod_neg_bound (Z.of_nat (length fa_idx_data)) P HP) as Hm.
  unfold py_range, py_repeat. rewrite seqZ_nil by lia.
  replace (Z.to_nat P) with 0%nat by lia. done.
Qed.





Lemma split_plan_no_record (P : Z) :
  P <> 0 -> split_plan [] P = Raise IndexError.
Proof.
  intros HP. destruct (Z.lt_trichotomy P 0) as [Hneg|[->|Hpos]]; [|done|].
  - rewrite split_plan_negative by done.
    unfold plan_block_size. by rewrite py_getitem_empty.
  - by apply split_plan_empty_index.
Qed.

(** X6. On an index file without a line, [split] asked for a number of
    parts other than 0 raises IndexError once it has read the index: the
    source is not opened and no part file is written. *)
Theorem X6_split_empty_index_is_index_error `{Externals}
    (self : FastaFile.t) (P : Z) (work_dir samtools_bin : string)
    (w : world) :
  P <> 0 ->
  fs w !! (FastaFile.original_file self +:+ ".fai") = Some [] ->
  FastaFile.split self P work_dir samtools_bin w
  = (Raise IndexError,
     {| fs := fs w;
        trace := trace w
                 ++ [EvExists (FastaFile.original_file self +:+ ".fai");
                     EvOpenRead (FastaFile.original_file self +:+ ".fai")] |}).
Proof.
  intros HP Hidx.
  rewrite (split_index_read self P work_dir samtools_bin w [] [])
    by done.
  erewrite bind_raise; [reflexivity|].
  unfold lift. by rewrite split_plan_no_record.
Qed.

Lemma X6_split_empty_index_witness :
  (FastaFile.split (FastaFile_object "s.fa" "samtools") 3 "tmp" "samtools"
     (world_of [("s.fa", text (">a" +:+ nl +:+ "AC" +:+ nl));
                ("s.fa.fai", [])])).1
  = Raise IndexError.
Proof.
  rewrite (@X6_split_empty_index_is_index_error copy_externals
             (FastaFile_object "s.fa" "samtools") 3 "tmp" "samtools"
             (world_of [("s.fa", text (">a" +:+ nl +:+ "AC" +:+ nl));
                        ("s.fa.fai", [])])
             ltac:(lia) eq_refl).
  reflexivity.
Defined.

(** ** The plan on an index in file order *)

Lemma py_getitem_lookup {A} (l : list A) (i : Z) (x : A) :
  0 <= i -> py_getitem l i = Ok x -> l !! Z.to_nat i = Some x.
Proof.
  intros Hi. unfold py_getitem.
  destruct (Z.ltb_spec i 0); [lia|].
  destruct (_ || _); [done|].
  destruct (l !! Z.to_nat i); [|done]. by intros [= ->].
Qed.

Lemma end_positions_lookup (fa_idx_data : list FastaIndex.t) (ends : list Z)
    (j : nat) (r : FastaIndex.t) (pos : Z) :
  end_positions fa_idx_data ends ->
  fa_idx_data !! j = Some r -> FastaIndex.end_pos r = Ok pos ->
  ends !! j = Some pos.
Proof.
  intros Hends Hr Hpos.
  destruct (Forall2_lookup_l _ _ _ _ _ Hends Hr) as (y & Hy & He).
  rewrite Hpos in He. by injection He as <-.
Qed.

Lemma splice_loop_mono (fa_idx_data : list FastaIndex.t) (ends : list Z)
    (e : Z) :
  end_positions fa_idx_data ends ->
  nondecreasing ends ->
  (forall x, x ∈ ends -> x <= e) ->
  forall (nums splice_pos : list Z) (idx : Z) splice_pos' idx' (lo : Z),
    rfold (splice_step fa_idx_data) nums (splice_pos, idx)
    = Ok (splice_pos', idx') ->
    Forall (fun num => 0 <= num) nums ->
    0 <= idx -> ends !! Z.to_nat idx = Some lo ->
    exists new,
      splice_pos' = splice_pos ++ new
      /\ Forall (fun bsize => 0 <= bsize)
                (zip_with Z.sub (new ++ [e]) (lo :: new)).
Proof.
  intros Hends Hmono Hmax.
  induction nums as [|num nums IH]; intros sp idx sp' idx' lo Hrun Hnums Hidx Hlo.
  - injection Hrun as <- <-. exists []. rewrite app_nil_r. split; [done|].
    simpl. constructor; [|done].
    apply list_elem_of_lookup_2 in Hlo. apply Hmax in Hlo. lia.
  - inversion Hnums as [|? ? Hnum Hnums']; subst.
    simpl in Hrun.
    destruct (py_getitem fa_idx_data (idx + num)) as [r|] eqn:Hr; [|done].
    simpl in Hrun.
    destruct (FastaIndex.end_pos r) as [pos|] eqn:Hpos; [|done].
    simpl in Hrun.
    apply py_getitem_lookup in Hr; [|lia].
    pose proof (end_positions_lookup _ _ _ _ _ Hends Hr Hpos) as Hp.
    destruct (IH _ _ _ _ pos Hrun Hnums' ltac:(lia) Hp) as (new & -> & Hnew).
    exists (pos :: new). rewrite <- app_assoc. split; [done|].
    simpl. constructor; [|done].
    pose proof (Hmono (Z.to_nat idx) (Z.to_nat (idx + num)) lo pos
                  ltac:(lia) Hlo Hp).
    lia.
Qed.

Lemma cut_counts_shape (R P : Z) :
  0 < P -> 1 <= R ->
  let nums := replicate (Z.to_nat (R mod P)) (R / P + 1)
              ++ replicate (Z.to_nat (P - R mod P - 1)) (R / P) in
  Forall (fun num => 0 <= num) nums
  /\ (forall n0, head nums = Some n0 -> 1 <= n0).
Proof.
  intros HP HR nums.
  pose proof (Z.mod_pos_bound R P HP) as Hm.
  pose proof (Z.div_mod R P ltac:(lia)) as Hdm.
  assert (Hq : 0 <= R / P) by (apply Z.div_pos; lia).
  split.
  - apply Forall_app. split; apply Forall_replicate; lia.
  - subst nums. intros n0.
    destruct (Z.to_nat (R mod P)) as [|k] eqn:Ha.
    + cbn [replicate app].
      destruct (Z.to_nat (P - R mod P - 1)) as [|k']; [done|].
      cbn [replicate head]. intros [= <-]. nia.
    + cbn [replicate app head]. intros [= <-]. lia.
Qed.

Lemma block_sizes_nonneg (fa_idx_data : list FastaIndex.t) (ends : list Z)
    (P : Z) (p : plan) :
  0 < P -> fa_idx_data <> [] ->
  end_positions fa_idx_data ends ->
  nondecreasing (0 :: ends) ->
  split_plan fa_idx_data P = Ok p ->
  Forall (fun bsize => 0 <= bsize) (block_size p).
Proof.
  intros HP Hne Hends Hmono0 Hplan.
  assert (Hpos : forall x, x ∈ ends -> 0 <= x).
  { intros x Hx. apply list_elem_of_lookup_1 in Hx as [i Hi].
    apply (Hmono0 0%nat (S i) 0 x); [lia|done|done]. }
  assert (Hmono : nondecreasing ends).
  { intros i j x y Hij Hx Hy.
    apply (Hmono0 (S i) (S j) x y); [lia|done|done]. }
  rewrite split_plan_unfold in Hplan by done. cbv zeta in Hplan.
  set (R := Z.of_nat (length fa_idx_data)) in *.
  assert (HR : 1 <= R).
  { subst R. destruct fa_idx_data; [done|]. simpl. lia. }
  destruct (cut_counts_shape R P HP HR) as [Hnums Hhead].
  destruct (rfold _ _ _) as [[sp idx]|] eqn:Hout; [|done].
  simpl in Hplan.
  destruct (plan_block_size fa_idx_data sp) as [bs|] eqn:Hbs; [|done].
  injection Hplan as <-. simpl.
  apply plan_block_size_spec in Hbs as (r & e & Hlast & He & ->).
  destruct (end_positions_last _ _ _ Hends Hlast) as (e' & Hle & He').
  rewrite He in He'. injection He' as <-.
  assert (Hmax : forall x, x ∈ ends -> x <= e).
  { intros x Hx. apply list_elem_of_lookup_1 in Hx as [i Hi].
    rewrite last_lookup in Hle.
    apply (Hmono i (pred (length ends)) x e); [|done|done].
    apply lookup_lt_Some in Hi. lia. }
  destruct (replicate _ _ ++ replicate _ _) as [|n0 nums] eqn:Hshape.
  - injection Hout as <- <-. simpl. constructor; [|done].
    assert (e ∈ ends).
    { rewrite last_lookup in Hle. by eapply list_elem_of_lookup_2. }
    specialize (Hpos e ltac:(done)). lia.
  - specialize (Hhead n0 eq_refl).
    inversion Hnums as [|? ? _ Hnums']; subst.
    simpl in Hout.
    destruct (py_getitem fa_idx_data (-1 + n0)) as [r0|] eqn:Hr0; [|done].
    simpl in Hout.
    destruct (FastaIndex.end_pos r0) as [p0|] eqn:Hp0; [|done].
    simpl in Hout.
    apply py_getitem_lookup in Hr0; [|lia].
    pose proof (end_positions_lookup _ _ _ _ _ Hends Hr0 Hp0) as Hp.
    destruct (splice_loop_mono _ _ e Hends Hmono Hmax _ _ _ _ _ p0 Hout
                Hnums' ltac:(lia) Hp) as (new & -> & Hnew).
    simpl. constructor; [|done].
    apply list_elem_of_lookup_2 in Hp. apply Hpos in Hp. lia.
Qed.

Lemma end_positions_line_bases (fa_idx_data : list FastaIndex.t)
    (ends : list Z) :
  end_positions fa_idx_data ends ->
  Forall (fun r => FastaIndex.line_bases r <> 0) fa_idx_data.
Proof.
  induction 1 as [|r e l ends He _ IH]; constructor; [|done].
  intros Hz. by rewrite end_pos_zero in He.
Qed.

(** X7. On an index of at least one record whose record end positions
    are non-negative and in non-decreasing order, the planner returns a
    plan for every P >= 1, and the plan has P block sizes, none of them
    negative, that sum to the end position of the last record. *)
Theorem X7_plan_of_ordered_index_has_no_negative_block
    (fa_idx_data : list FastaIndex.t) (ends : list Z) (P : Z) :
  0 < P -> fa_idx_data <> [] ->
  end_positions fa_idx_data ends ->
  nondecreasing (0 :: ends) ->
  exists p e,
    split_plan fa_idx_data P = Ok p
    /\ length (block_size p) = Z.to_nat P
    /\ Forall (fun bsize => 0 <= bsize) (block_size p)
    /\ last ends = Some e
    /\ py_sum (block_size p) = e.
Proof.
  intros HP Hne Hends Hmono.
  destruct (split_plan_total fa_idx_data P Hne HP
              (end_positions_line_bases _ _ Hends)) as [p Hp].
  destruct (split_plan_sound fa_idx_data P p HP Hp)
    as (r & e & Hlast & He & _ & Hsum & _ & Hlen & _).
  destruct (end_positions_last _ _ _ Hends Hlast) as (e' & Hle & He').
  rewrite He in He'. injection He' as <-.
  exists p, e. split; [done|]. split; [done|].
  split; [by eapply block_sizes_nonneg|done].
Qed.

Lemma X7_plan_of_ordered_index_witness :
  exists p e,
    split_plan [FastaIndex.mk (text "a") 2 3 2 3;
                FastaIndex.mk (text "b") 2 9 2 3;
                FastaIndex.mk (text "c") 5 15 2 3] 2 = Ok p
    /\ length (block_size p) = 2%nat
    /\ Forall (fun bsize => 0 <= bsize) (block_size p)
    /\ last [6; 12; 23] = Some e
    /\ py_sum (block_size p) = e.
Proof.
  apply (X7_plan_of_ordered_index_has_no_negative_block
           [FastaIndex.mk (text "a") 2 3 2 3;
            FastaIndex.mk (text "b") 2 9 2 3;
            FastaIndex.mk (text "c") 5 15 2 3] [6; 12; 23] 2).
  - lia.
  - discriminate.
  - repeat constructor.
  - intros i j x y Hij Hx Hy.
    destruct i as [|[|[|[|i]]]]; destruct j as [|[|[|[|j]]]];
      cbn in Hx, Hy; try discriminate; try lia;
      injection Hx as <-; injection Hy as <-; lia.
Defined.




(** X9. In every plan for P >= 1 parts the record counts are P numbers,
    none negative, that add up to the number of records of the index:
    each record is counted in one part, also when there are more parts
    than records. *)
Theorem X9_counts_add_up_to_the_records
    (fa_idx_data : list FastaIndex.t) (P : Z) (p : plan) :
  0 < P ->
  split_plan fa_idx_data P = Ok p ->
  length (num_list p) = Z.to_nat P
  /\ Forall (fun num => 0 <= num) (num_list p)
  /\ py_sum (num_list p) = Z.of_nat (length fa_idx_data).
Proof.
  intros HP. rewrite split_plan_unfold by done. cbv zeta.
  set (R := Z.of_nat (length fa_idx_data)).
  pose proof (Z.mod_pos_bound R P HP) as Hm.
  pose proof (Z.div_mod R P ltac:(lia)) as Hdm.
  assert (Hq : 0 <= R / P) by (apply Z.div_pos; lia).
  destruct (rfold _ _ _) as [[sp idx]|]; [|done]. simpl.
  destruct (plan_block_size _ _) as [bs|]; [|done]. simpl.
  intros [= <-]. simpl. split; [|split].
  - rewrite length_app, !length_replicate. lia.
  - apply Forall_app. split; apply Forall_replicate; lia.
  - rewrite py_sum_app, !py_sum_replicate. nia.
Qed.

Lemma X9_counts_witness :
  length [1; 1; 0] = Z.to_nat 3
  /\ Forall (fun num => 0 <= num) [1; 1; 0]
  /\ py_sum [1; 1; 0] = 2.
Proof.
  apply (X9_counts_add_up_to_the_records
           [FastaIndex.mk (text "a") 2 3 2 3;
            FastaIndex.mk (text "b") 2 9 2 3] 3
           {| num_list := [1; 1; 0]; splice_pos := [6; 12];
              block_size := [6; 6; 0] |}); [lia|reflexivity].
Defined.

(** ** What the parts hold *)








(** ** The names of the part files and of the result files *)

Lemma list_ascii_of_string_app (a b : string) :
  list_ascii_of_string (a +:+ b)
  = list_ascii_of_string a ++ list_ascii_of_string b.
Proof.
  induction a as [|x a IH]; [reflexivity|].
  change (x :: list_ascii_of_string (a +:+ b)
          = x :: (list_ascii_of_string a ++ list_ascii_of_string b)).
  by rewrite IH.
Qed.

Lemma string_app_inv_tail (a b c : string) : a +:+ c = b +:+ c -> a = b.
Proof.
  intros Heq. apply (f_equal list_ascii_of_string) in Heq.
  rewrite !list_ascii_of_string_app in Heq. apply app_inv_tail in Heq.
  rewrite <- (string_of_list_ascii_of_string a),
          <- (string_of_list_ascii_of_string b).
  by rewrite Heq.
Qed.

Lemma last_char_app (a b : string) (c : ascii) :
  last (list_ascii_of_string b) = Some c ->
  last (list_ascii_of_string (a +:+ b)) = Some c.
Proof.
  intros Hb. rewrite list_ascii_of_string_app.
  destruct (list_ascii_of_string b) as [|x l] using rev_ind; [done|].
  rewrite last_snoc in Hb. rewrite app_assoc, last_snoc. done.
Qed.

Lemma pretty_N_go_last (x : N) :
  forall (s : string) (c : ascii),
    last (list_ascii_of_string s) = Some c ->
    last (list_ascii_of_string (pretty_N_go x s)) = Some c.
Proof.
  induction (N.lt_wf_0 x) as [x _ IH]; intros s c Hs.
  assert (x = 0 \/ 0 < x)%N as [->|Hx] by lia.
  - by rewrite pretty_N_go_0.
  - rewrite pretty_N_go_step by done. apply IH; [by apply N.div_lt|].
    change (last (pretty_N_char (x `mod` 10) :: list_ascii_of_string s)
            = Some c).
    destruct (list_ascii_of_string s); done.
Qed.

Lemma pretty_N_char_digit (x : N) : is_digit (pretty_N_char x) = true.
Proof. unfold pretty_N_char. by repeat case_match. Qed.

Lemma pretty_N_last_digit (x : N) :
  exists c, last (list_ascii_of_string (pretty x)) = Some c
            /\ is_digit c = true.
Proof.
  unfold pretty, pretty_N. case_decide as Hx.
  - exists "0"%char. done.
  - rewrite pretty_N_go_step by lia.
    exists (pretty_N_char (x `mod` 10)). split.
    + by apply pretty_N_go_last.
    + apply pretty_N_char_digit.
Qed.

Lemma pretty_Z_last_digit (i : Z) :
  exists c, last (list_ascii_of_string (pretty i)) = Some c
            /\ is_digit c = true.
Proof.
  destruct i as [|x|x]; unfold pretty, pretty_Z.
  - exists "0"%char. done.
  - apply pretty_N_last_digit.
  - destruct (pretty_N_last_digit (N.pos x)) as (c & Hc & Hd).
    exists c. split; [|done]. by apply last_char_app.
Qed.

Lemma part_file_last_digit (self : FastaFile.t) (num_files : Z)
    (work_dir f : string) :
  f ∈ FastaFile.part_files self num_files work_dir ->
  exists c, last (list_ascii_of_string f) = Some c /\ is_digit c = true.
Proof.
  unfold FastaFile.part_files. intros Hf.
  apply list_elem_of_fmap in Hf as (i & -> & _).
  destruct (path_join_prefix work_dir (FastaFile.original_filename self))
    as [q Hq].
  rewrite Hq. destruct (pretty_Z_last_digit i) as (c & Hc & Hd).
  exists c. split; [|done]. by do 3 apply last_char_app.
Qed.

Lemma result_files_NoDup (files : list string) :
  NoDup files -> NoDup ((fun file_ => file_ +:+ ".psl") <$> files).
Proof.
  intros Hnd. apply NoDup_fmap_2_strong; [|done].
  intros f g _ _ Heq. by apply string_app_inv_tail in Heq.
Qed.

Lemma part_file_is_no_result_file (self : FastaFile.t) (num_files : Z)
    (work_dir f : string) (files : list string) :
  f ∈ FastaFile.part_files self num_files work_dir ->
  f ∉ (fun file_ => file_ +:+ ".psl") <$> files.
Proof.
  intros Hf Hout.
  apply list_elem_of_fmap in Hout as (g & -> & _).
  apply part_file_last_digit in Hf as (c & Hc & Hd).
  rewrite (last_char_app g ".psl" "l"%char) in Hc by done.
  injection Hc as <-. done.
Qed.

(** X12. The names that [split] gives the parts and the names that
    mp_blat gives the result files (the part name followed by .psl) are
    max(P, 0) names each, pairwise distinct, and no part file is a result
    file: no worker writes over a part or over the result of another. *)
Theorem X12_part_and_result_names_do_not_collide
    (self : FastaFile.t) (num_files : Z) (work_dir : string) :
  let files := FastaFile.part_files self num_files work_dir in
  let out_files := (fun file_ => file_ +:+ ".psl") <$> files in
  length files = Z.to_nat num_files
  /\ length out_files = Z.to_nat num_files
  /\ NoDup (files ++ out_files).
Proof.
  intros files out_files. split; [apply part_files_length|].
  split; [subst out_files; rewrite length_fmap; apply part_files_length|].
  apply NoDup_app. split; [apply part_files_NoDup|]. split.
  - intros f Hf. by eapply part_file_is_no_result_file.
  - apply result_files_NoDup, part_files_NoDup.
Qed.

(** ** The merge when a result is missing *)

Lemma merge_loop_missing (output_file : string) (n : nat)
    (pre : list string) (contents : list (list ascii)) (f : string)
    (post : list string) :
  Forall2 (fun _ _ => True) pre contents ->
  forall (w : world) (acc : list ascii),
    Forall2 (fun g c => g <> output_file /\ fs w !! g = Some c)
            pre contents ->
    f <> output_file -> fs w !! f = None ->
    fs w !! output_file = Some acc ->
    for_each (pre ++ f :: post) (fun file_ =>
      let* res_in := open_rb file_ in
      file_write output_file (drop n res_in)) w
    = (Raise FileNotFoundError,
       {| fs := <[output_file := acc ++ concat (drop n <$> contents)]> (fs w);
          trace := trace w ++ (EvOpenRead <$> pre ++ [f]) |}).
Proof.
  induction 1 as [|g c pre contents _ _ IH]; intros w acc Hpre Hne Hf Hacc.
  - cbn [app for_each fmap list_fmap concat].
    erewrite bind_raise;
      [|erewrite bind_raise; [reflexivity|by apply open_rb_missing]].
    rewrite app_nil_r, insert_id by done. done.
  - inversion Hpre as [|? ? ? ? [Hng Hg] Hrest]; subst.
    cbn [app for_each].
    erewrite bind_ok;
      [|erewrite bind_ok; [apply file_write_spec|by apply open_rb_ok]].
    cbn [fs trace]. rewrite Hacc. cbn [default].
    rewrite (IH _ (acc ++ drop n c)); cbn [fs trace].
    + rewrite insert_insert_eq. cbn [fmap list_fmap concat app].
      rewrite (app_assoc acc), <- (app_assoc (trace w)). done.
    + eapply Forall2_impl; [exact Hrest|]. cbn beta.
      intros g' c' [Hne' Hg']. split; [done|].
      by rewrite lookup_insert_ne.
    + done.
    + by rewrite lookup_insert_ne.
    + by rewrite lookup_insert_eq.
Qed.

(** X13. When a result file is missing (the files before it exist and
    none of them is the output file), the merge raises FileNotFoundError
    at that file, and by then the output file has been created or
    truncated: it holds nothing if the first result is the missing one,
    and otherwise the header of the first result followed by the bodies
    of the results before the missing one. No other file is changed. *)
Theorem X13_merge_fails_at_a_missing_result_with_output_truncated
    (output_file : string) (pre : list string) (contents : list (list ascii))
    (f : string) (post : list string) (w : world) :
  Forall2 (fun g c => g <> output_file /\ fs w !! g = Some c) pre contents ->
  f <> output_file ->
  fs w !! f = None ->
  let h := header_block (default [] (head contents)) in
  exists w',
    merge_results output_file (pre ++ f :: post) w
    = (Raise FileNotFoundError, w')
    /\ fs w' !! output_file
       = Some (h ++ concat (drop (length h) <$> contents))
    /\ (forall g, g <> output_file -> fs w' !! g = fs w !! g)
    /\ trace w'
       = trace w ++ [EvOpenWrite output_file]
         ++ (EvOpenRead <$> take 1 (pre ++ [f]))
         ++ match pre with [] => [] | _ :: _ => EvOpenRead <$> pre ++ [f] end.
Proof.
  intros Hpre Hne Hf h. unfold merge_results.
  erewrite bind_ok; [|apply open_w_spec].
  destruct Hpre as [|g0 c0 pre contents [Hng0 Hg0] Hrest].
  - cbn [app].
    erewrite bind_ok; [|unfold lift; by rewrite (py_getitem_nat _ 0%nat f)].
    erewrite bind_raise;
      [|apply open_rb_missing; cbn [fs]; by rewrite lookup_insert_ne].
    eexists. split; [reflexivity|]. cbn [fs trace].
    rewrite lookup_insert_eq. split; [done|]. split.
    + intros g Hg. by rewrite lookup_insert_ne.
    + by rewrite <- app_assoc.
  - cbn [app head default] in h |- *. unfold id in h.
    erewrite bind_ok; [|unfold lift; by rewrite (py_getitem_nat _ 0%nat g0)].
    erewrite bind_ok;
      [|apply open_rb_ok; cbn [fs]; by rewrite lookup_insert_ne].
    cbn [fs trace]. subst h. unfold header_block.
    destruct (read_lines 5 c0) as [header rest] eqn:Hread. cbn [fst].
    erewrite bind_ok; [|apply file_write_spec].
    cbn [fs trace]. rewrite lookup_insert_eq. cbn [default app].
    change (g0 :: pre ++ f :: post) with ((g0 :: pre) ++ f :: post).
    rewrite (merge_loop_missing output_file (length header) (g0 :: pre)
               (c0 :: contents) f post
               ltac:(constructor; [done|];
                     eapply Forall2_impl; [exact Hrest|done])
               _ header); cbn [fs trace].
    + eexists. split; [reflexivity|]. cbn [fs trace].
      rewrite !insert_insert_eq, lookup_insert_eq. split; [done|]. split.
      * intros g Hg. by rewrite lookup_insert_ne.
      * rewrite <- !app_assoc. done.
    + constructor.
      * split; [done|]. by rewrite !lookup_insert_ne.
      * eapply Forall2_impl; [exact Hrest|]. cbn beta.
        intros g c [Hng Hg]. split; [done|]. by rewrite !lookup_insert_ne.
    + done.
    + by rewrite !lookup_insert_ne.
    + by rewrite lookup_insert_eq.
Qed.

Lemma X13_merge_missing_result_witness :
  let a := text ("h1" +:+ nl +:+ "h2" +:+ nl +:+ "h3" +:+ nl +:+ "h4" +:+ nl
                 +:+ "h5" +:+ nl +:+ "rowA" +:+ nl) in
  exists w',
    merge_results "out.psl"
      (["a.psl"%string] ++ "b.psl"%string :: ["c.psl"%string])
      (world_of [("a.psl"%string, a); ("out.psl"%string, text "old")])
    = (Raise FileNotFoundError, w')
    /\ fs w' !! "out.psl"%string = Some a.
Proof.
  intros a.
  destruct (X13_merge_fails_at_a_missing_result_with_output_truncated
              "out.psl" ["a.psl"%string] [a] "b.psl" ["c.psl"%string]
              (world_of [("a.psl"%string, a);
                         ("out.psl"%string, text "old")]))
    as (w' & Hrun & Hout & _).
  - constructor; [|constructor]. split; [discriminate|reflexivity].
  - discriminate.
  - reflexivity.
  - exists w'. split; [exact Hrun|]. rewrite Hout. reflexivity.
Defined.

(** ** The options of the alignment program *)

Lemma shlex_word (t : list ascii) :
  forall (rest token : list ascii) (quoted : bool),
    Forall (fun c => shlex_plain c = true) t ->
    shlex_tokens (t ++ rest) ShWord token quoted
    = shlex_tokens rest ShWord (token ++ t) quoted.
Proof.
  induction t as [|c t IH]; intros rest token quoted Hall.
  - by rewrite app_nil_r.
  - inversion Hall as [|? ? Hc Ht]; subst.
    unfold shlex_plain in Hc. apply negb_true_iff in Hc.
    apply orb_false_iff in Hc as [Hc Hb].
    apply orb_false_iff in Hc as [Hw Hq].
    cbn [app shlex_tokens]. rewrite Hw, Hq, Hb.
    rewrite IH by done. by rewrite <- app_assoc.
Qed.

Lemma shlex_start (c : ascii) (s token : list ascii) (quoted : bool) :
  shlex_plain c = true ->
  shlex_tokens (c :: s) ShWhite token quoted
  = shlex_tokens s ShWord [c] quoted.
Proof.
  intros Hc. unfold shlex_plain in Hc. apply negb_true_iff in Hc.
  apply orb_false_iff in Hc as [Hc Hb].
  apply orb_false_iff in Hc as [Hw Hq].
  cbn [shlex_tokens]. by rewrite Hw, Hb, Hq.
Qed.

Lemma shlex_tokens_joined (toks : list string) :
  Forall plain_option toks ->
  shlex_tokens (list_ascii_of_string (String.concat " " toks)) ShWhite []
               false
  = Ok (list_ascii_of_string <$> toks).
Proof.
  induction 1 as [|t toks [Hne Ht] Hrest IH]; [done|].
  destruct (list_ascii_of_string t) as [|c l] eqn:Hl.
  { destruct t; [done|discriminate]. }
  inversion Ht as [|? ? Hc Hl']; subst.
  destruct toks as [|t2 toks].
  - cbn [String.concat fmap list_fmap]. rewrite Hl.
    rewrite shlex_start by done.
    pose proof (shlex_word l [] [c] false Hl') as Hw.
    rewrite app_nil_r in Hw. rewrite Hw. done.
  - change (String.concat " " (t :: t2 :: toks))
      with (t +:+ " " +:+ String.concat " " (t2 :: toks)).
    rewrite !list_ascii_of_string_app, Hl.
    cbn [app]. rewrite shlex_start by done.
    rewrite shlex_word by done.
    change (list_ascii_of_string " ") with [" "%char].
    cbn [app shlex_tokens].
    change (shlex_whitespace " ") with true. cbv iota.
    rewrite IH. cbn [rbind shlex_emit app fmap list_fmap]. by rewrite Hl.
Qed.

(** X14. Options that need no quoting (each one non-empty, without white
    space, quote or backslash), written one after the other with a space
    between them, are what [shlex.split] gives back: the constructor of
    Blat keeps them unchanged and in order, the empty option string gives
    no option, and the call of the program then has the arguments
    [blat_bin, ref_file, fa_file, out_file] followed by these options. *)
Theorem X14_plain_options_reach_the_program_unchanged `{Externals}
    (blat_bin : string) (toks : list string)
    (ref_file fa_file out_file : string) (w : world) :
  Forall plain_option toks ->
  shlex_split (String.concat " " toks) = Ok toks
  /\ Blat.init blat_bin (String.concat " " toks) = Ok (Blat.mk blat_bin toks)
  /\ (forall b, Blat.init blat_bin (String.concat " " toks) = Ok b ->
      exists returncode,
        trace (Blat.call b ref_file fa_file out_file w).2
        = trace w ++ [EvExec ([blat_bin; ref_file; fa_file; out_file]
                                ++ toks) returncode]).
Proof.
  intros Hall.
  assert (Hsplit : shlex_split (String.concat " " toks) = Ok toks).
  { unfold shlex_split. rewrite shlex_tokens_joined by done.
    cbn [rbind]. f_equal. rewrite <- list_fmap_compose.
    rewrite <- (list_fmap_id toks) at 2. apply list_fmap_ext.
    intros i t _. apply string_of_list_ascii_of_string. }
  split; [done|].
  assert (Hinit : Blat.init blat_bin (String.concat " " toks)
                  = Ok (Blat.mk blat_bin toks)).
  { unfold Blat.init. by rewrite Hsplit. }
  split; [done|].
  intros b Hb. rewrite Hinit in Hb. injection Hb as <-.
  destruct (blat_exec blat_bin toks (fs w !! ref_file) (fs w !! fa_file))
    as [returncode out] eqn:Hexec.
  exists returncode.
  by rewrite (Blat_call_spec (Blat.mk blat_bin toks) ref_file fa_file
                out_file w returncode out Hexec).
Qed.

Lemma X14_plain_options_witness :
  shlex_split "-t=dna -minScore=30 -noHead"
  = Ok ["-t=dna"; "-minScore=30"; "-noHead"]%string.
Proof.
  refine (proj1 (@X14_plain_options_reach_the_program_unchanged copy_externals
                   "blat" ["-t=dna"; "-minScore=30"; "-noHead"]%string
                   "ref.fa" "s.fa" "out.psl" two_record_world _)).
  repeat constructor; discriminate.
Defined.

(** ** Split, dispatch and merge together *)







(** ** The loop over the lines of the index *)

Lemma read_index_loop `{Externals} (lines : list (list ascii)) :
  forall (acc recs : list FastaIndex.t),
    rfold (fun fa_idx_data line =>
             let? idx_data := parse_index_line line in
             Ok (fa_idx_data ++ [idx_data])) lines acc = Ok recs
    <-> exists new,
          recs = acc ++ new
          /\ Forall2 (fun line r => parse_index_line line = Ok r) lines new.
Proof.
  induction lines as [|line lines IH]; intros acc recs; cbn [rfold].
  - split.
    + intros [= <-]. exists []. by rewrite app_nil_r.
    + intros (new & -> & Hnew). inversion Hnew. by rewrite app_nil_r.
  - destruct (parse_index_line line) as [r|e] eqn:Hline; cbn [rbind].
    + rewrite IH. split.
      * intros (new & -> & Hnew). exists (r :: new).
        rewrite <- app_assoc. split; [done|]. by constructor.
      * intros (new & -> & Hnew).
        inversion Hnew as [|? r' ? new' Hr Hrest]; subst.
        rewrite Hline in Hr. injection Hr as <-.
        exists new'. by rewrite <- app_assoc.
    + split; [done|].
      intros (new & -> & Hnew).
      inversion Hnew as [|? r' ? new' Hr Hrest]; subst.
      by rewrite Hline in Hr.
Qed.

Lemma read_index_loop_raises `{Externals} (good : list (list ascii))
    (bad : list ascii) (rest : list (list ascii)) (e : exn) :
  forall (acc new : list FastaIndex.t),
    Forall2 (fun line r => parse_index_line line = Ok r) good new ->
    parse_index_line bad = Raise e ->
    rfold (fun fa_idx_data line =>
             let? idx_data := parse_index_line line in
             Ok (fa_idx_data ++ [idx_data])) (good ++ bad :: rest) acc
    = Raise e.
Proof.
  intros acc new Hgood Hbad. revert acc.
  induction Hgood as [|line r good new Hline _ IH]; intros acc;
    cbn [app rfold].
  - by rewrite Hbad.
  - rewrite Hline. cbn [rbind]. apply IH.
Qed.

Lemma rstrip_char_snoc (a : ascii) (s : list ascii) :
  rstrip_char a (s ++ [a]) = rstrip_char a s.
Proof.
  unfold rstrip_char. rewrite rev_app_distr. cbn [rev app lstrip_char].
  unfold is_char. by rewrite Z.eqb_refl.
Qed.

(** X16. The loop over the index gives one record for each line, in the
    order of the lines: it returns a list of records exactly when every
    line parses, the records being those of the lines; it raises what the
    first line that does not parse raises; a line parses the same with or
    without a line feed at its end; and a line that holds only a line
    feed is a TypeError. *)
Theorem X16_index_records_are_the_parsed_lines `{Externals}
    (idx_in : list ascii) :
  (forall recs,
     FastaFile.read_index idx_in = Ok recs
     <-> Forall2 (fun line r => parse_index_line line = Ok r)
                 (file_lines idx_in) recs)
  /\ (forall good new bad rest e,
        file_lines idx_in = good ++ bad :: rest ->
        Forall2 (fun line r => parse_index_line line = Ok r) good new ->
        parse_index_line bad = Raise e ->
        FastaFile.read_index idx_in = Raise e)
  /\ (forall line, parse_index_line (line ++ [LF]) = parse_index_line line)
  /\ parse_index_line [LF] = Raise TypeError.
Proof.
  split; [|split; [|split]].
  - intros recs. unfold FastaFile.read_index. rewrite read_index_loop.
    split.
    + by intros (new & -> & Hnew).
    + intros Hall. by exists recs.
  - intros good new bad rest e Hlines Hgood Hbad.
    unfold FastaFile.read_index. rewrite Hlines.
    by eapply read_index_loop_raises.
  - intros line. unfold parse_index_line. by rewrite rstrip_char_snoc.
  - done.
Qed.

(** ** A source that is not there *)



(** ** Records that follow one another in the file *)

Lemma nondecreasing_cons (x y : Z) (l : list Z) :
  x <= y -> nondecreasing (y :: l) -> nondecreasing (x :: y :: l).
Proof.
  intros Hxy Hl i j a c Hij Ha Hc.
  destruct i as [|i], j as [|j]; try lia.
  - injection Ha as <-. injection Hc as <-. lia.
  - injection Ha as <-. cbn in Hc.
    pose proof (Hl 0%nat j y c ltac:(lia) eq_refl Hc). lia.
  - cbn in Ha, Hc. apply (Hl i j a c); [lia|done|done].
Qed.

Lemma end_pos_after_offset (r : FastaIndex.t) :
  0 <= FastaIndex.length r -> 0 < FastaIndex.line_bases r ->
  exists e, FastaIndex.end_pos r = Ok e
            /\ FastaIndex.offset r + FastaIndex.length r <= e
               <= FastaIndex.offset r + 2 * FastaIndex.length r.
Proof.
  intros Hlen Hlb. rewrite end_pos_nonzero by lia. eexists. split; [done|].
  pose proof (Z.mod_pos_bound (FastaIndex.length r) (FastaIndex.line_bases r)
                Hlb) as Hm.
  pose proof (Z.div_mod (FastaIndex.length r) (FastaIndex.line_bases r)
                ltac:(lia)) as Hdm.
  assert (Hq : 0 <= FastaIndex.length r / FastaIndex.line_bases r)
    by (apply Z.div_pos; lia).
  destruct (Z.ltb_spec 0 (FastaIndex.length r mod FastaIndex.line_bases r));
    nia.
Qed.

Lemma laid_out_ordered (fa_idx_data : list FastaIndex.t) :
  forall prev,
    laid_out prev fa_idx_data ->
    exists ends,
      end_positions fa_idx_data ends /\ nondecreasing (prev :: ends).
Proof.
  induction fa_idx_data as [|r fa IH]; intros prev Hlaid.
  - exists []. split; [constructor|].
    intros i j x y Hij Hx Hy.
    destruct i as [|i], j as [|j]; cbn in Hx, Hy; try discriminate.
    injection Hx as <-. injection Hy as <-. lia.
  - cbn [laid_out] in Hlaid. destruct Hlaid as (Hoff & Hlen & Hlb & Hrest).
    destruct (end_pos_after_offset r Hlen Hlb) as (e & He & Hlo & _).
    rewrite He in Hrest.
    destruct (IH e Hrest) as (ends & Hends & Hmono).
    exists (e :: ends). split; [by constructor|].
    apply nondecreasing_cons; [lia|done].
Qed.

(** X18. The end position of a record with a length that is not negative
    and a positive line_bases lies between offset + length and
    offset + 2 * length. So an index whose records follow one another in
    the file (each starts at or after the end of the one before it, the
    first at or after 0) has end positions in non-decreasing order, and
    for such an index of at least one record the planner returns, for
    every P >= 1, a plan without a negative block size. *)
Theorem X18_consecutive_records_give_no_negative_block
    (fa_idx_data : list FastaIndex.t) (P : Z) :
  0 < P -> fa_idx_data <> [] ->
  laid_out 0 fa_idx_data ->
  (forall r, r ∈ fa_idx_data ->
     exists e, FastaIndex.end_pos r = Ok e
               /\ FastaIndex.offset r + FastaIndex.length r <= e
                  <= FastaIndex.offset r + 2 * FastaIndex.length r)
  /\ exists ends p,
       end_positions fa_idx_data ends
       /\ nondecreasing (0 :: ends)
       /\ split_plan fa_idx_data P = Ok p
       /\ Forall (fun bsize => 0 <= bsize) (block_size p).
Proof.
  intros HP Hne Hlaid. split.
  - intros r Hr. revert Hlaid. generalize 0.
    induction fa_idx_data as [|r0 fa IH]; intros prev Hlaid.
    + by apply elem_of_nil in Hr.
    + cbn [laid_out] in Hlaid.
      destruct Hlaid as (Hoff & Hlen & Hlb & Hrest).
      apply elem_of_cons in Hr as [->|Hr];
        [by apply end_pos_after_offset|].
      destruct (FastaIndex.end_pos r0) as [e0|]; [|done].
      destruct fa as [|r1 fa]; [by apply elem_of_nil in Hr|].
      by apply (IH ltac:(done) Hr e0).
  - destruct (laid_out_ordered fa_idx_data 0 Hlaid) as (ends & Hends & Hmono).
    destruct (split_plan_total fa_idx_data P Hne HP
                (end_positions_line_bases _ _ Hends)) as [p Hp].
    exists ends, p. split; [done|]. split; [done|]. split; [done|].
    by eapply block_sizes_nonneg.
Qed.

Lemma X18_consecutive_records_witness :
  exists ends p,
    end_positions [FastaIndex.mk (text "a") 2 3 2 3;
                   FastaIndex.mk (text "b") 2 9 2 3;
                   FastaIndex.mk (text "c") 5 15 2 3] ends
    /\ nondecreasing (0 :: ends)
    /\ split_plan [FastaIndex.mk (text "a") 2 3 2 3;
                   FastaIndex.mk (text "b") 2 9 2 3;
                   FastaIndex.mk (text "c") 5 15 2 3] 2 = Ok p
    /\ Forall (fun bsize => 0 <= bsize) (block_size p).
Proof.
  apply (X18_consecutive_records_give_no_negative_block
           [FastaIndex.mk (text "a") 2 3 2 3;
            FastaIndex.mk (text "b") 2 9 2 3;
            FastaIndex.mk (text "c") 5 15 2 3] 2).
  - lia.
  - discriminate.
  - vm_compute. repeat split; discriminate.
Defined.

(** ** A number of processes that is negative *)




(** ** Which record ends each part *)

Lemma splice_loop_positions (fa_idx_data : list FastaIndex.t)
    (ends : list Z) :
  end_positions fa_idx_data ends ->
  forall (nums splice_pos : list Z) (idx : Z) splice_pos' idx',
    rfold (splice_step fa_idx_data) nums (splice_pos, idx)
    = Ok (splice_pos', idx') ->
    Forall (fun num => 0 <= num) nums ->
    -1 <= idx ->
    (0 <= idx \/ forall n0, head nums = Some n0 -> 1 <= n0) ->
    exists new,
      splice_pos' = splice_pos ++ new
      /\ forall (k : nat) (pos : Z),
           new !! k = Some pos ->
           ends !! Z.to_nat (idx + py_sum (take (S k) nums)) = Some pos.
Proof.
  intros Hends.
  induction nums as [|num nums IH]; intros sp idx sp' idx' Hrun Hnums Hidx Hfirst.
  - injection Hrun as <- <-. exists []. rewrite app_nil_r. split; [done|].
    intros k pos Hk. by rewrite lookup_nil in Hk.
  - inversion Hnums as [|? ? Hnum Hnums']; subst.
    assert (Hnext : 0 <= idx + num).
    { destruct Hfirst as [Hpos|Hhead]; [lia|].
      specialize (Hhead num eq_refl). lia. }
    simpl in Hrun.
    destruct (py_getitem fa_idx_data (idx + num)) as [r|] eqn:Hr; [|done].
    simpl in Hrun.
    destruct (FastaIndex.end_pos r) as [pos0|] eqn:Hpos; [|done].
    simpl in Hrun.
    apply py_getitem_lookup in Hr; [|done].
    pose proof (end_positions_lookup _ _ _ _ _ Hends Hr Hpos) as Hp.
    destruct (IH _ _ _ _ Hrun Hnums' ltac:(lia) ltac:(by left))
      as (new & -> & Hnew).
    exists (pos0 :: new). rewrite <- app_assoc. split; [done|].
    intros [|k] pos Hk.
    + injection Hk as <-.
      change (take 1 (num :: nums)) with [num]. cbn [py_sum foldr].
      by replace (idx + (num + 0)) with (idx + num) by lia.
    + cbn in Hk. apply Hnew in Hk.
      change (take (S (S k)) (num :: nums)) with (num :: take (S k) nums).
      change (py_sum (num :: take (S k) nums))
        with (num + py_sum (take (S k) nums)).
      by replace (idx + (num + py_sum (take (S k) nums)))
        with (idx + num + py_sum (take (S k) nums)) by lia.
Qed.

(** X20. In a plan for P >= 1 parts over an index of at least one
    record, cut k (counted from 0) is the end position of the record that
    closes the first k + 1 counts: the record of index
    num_list[0] + ... + num_list[k] - 1. So part k of a source that its
    index describes holds num_list[k] records. There are P - 1 cuts. *)
Theorem X20_cut_k_ends_the_record_that_closes_the_first_counts
    (fa_idx_data : list FastaIndex.t) (ends : list Z) (P : Z) (p : plan) :
  0 < P -> fa_idx_data <> [] ->
  end_positions fa_idx_data ends ->
  split_plan fa_idx_data P = Ok p ->
  length (splice_pos p) = Z.to_nat (P - 1)
  /\ forall (k : nat) (pos : Z),
       splice_pos p !! k = Some pos ->
       ends !! Z.to_nat (py_sum (take (S k) (num_list p)) - 1) = Some pos.
Proof.
  intros HP Hne Hends Hp.
  destruct (split_plan_sound fa_idx_data P p HP Hp)
    as (_ & _ & _ & _ & _ & _ & Hlen & _ & _).
  split; [done|].
  set (R := Z.of_nat (length fa_idx_data)).
  assert (HR : 1 <= R).
  { subst R. destruct fa_idx_data; [done|]. simpl. lia. }
  unfold split_plan in Hp. fold R in Hp.
  rewrite plan_num_list_spec in Hp by done. cbn [rbind] in Hp.
  unfold plan_splice_pos in Hp.
  destruct (rfold _ _ _) as [[sp idx]|] eqn:Hloop; [|done].
  cbn [rbind] in Hp.
  destruct (plan_block_size _ _) as [bs|]; [|done].
  injection Hp as <-. cbn [splice_pos num_list] in *.
  set (counts := replicate (Z.to_nat (R mod P)) (R / P + 1)
                 ++ replicate (Z.to_nat (P - R mod P)) (R / P)) in *.
  assert (Hinit : py_init counts
                  = replicate (Z.to_nat (R mod P)) (R / P + 1)
                    ++ replicate (Z.to_nat (P - R mod P - 1)) (R / P))
    by (by apply num_list_init).
  destruct (cut_counts_shape R P HP HR) as [Hnn Hhead].
  rewrite <- Hinit in Hnn, Hhead.
  destruct (splice_loop_positions _ _ Hends _ _ _ _ _ Hloop Hnn ltac:(lia)
              ltac:(by right)) as (new & -> & Hnew).
  intros k pos Hk. cbn [app] in Hk, Hlen.
  pose proof (lookup_lt_Some _ _ _ Hk) as Hlt.
  apply Hnew in Hk.
  assert (Htake : take (S k) (py_init counts) = take (S k) counts).
  { unfold py_init. rewrite take_take. f_equal.
    assert (length counts = Z.to_nat P).
    { subst counts. rewrite length_app, !length_replicate.
      pose proof (Z.mod_pos_bound R P HP). lia. }
    lia. }
  rewrite Htake in Hk.
  by replace (py_sum (take (S k) counts) - 1)
    with (-1 + py_sum (take (S k) counts)) by lia.
Qed.

Lemma X20_cut_k_witness :
  length [12] = Z.to_nat (2 - 1)
  /\ forall (k : nat) (pos : Z),
       [12] !! k = Some pos ->
       [6; 12; 23] !! Z.to_nat (py_sum (take (S k) [2; 1]) - 1) = Some pos.
Proof.
  apply (X20_cut_k_ends_the_record_that_closes_the_first_counts
           [FastaIndex.mk (text "a") 2 3 2 3;
            FastaIndex.mk (text "b") 2 9 2 3;
            FastaIndex.mk (text "c") 5 15 2 3] [6; 12; 23] 2
           {| num_list := [2; 1]; splice_pos := [12];
              block_size := [12; 11] |}).
  - lia.
  - discriminate.
  - repeat constructor.
  - reflexivity.
Defined.
